(** * obsidian2hugo: a shallow embedding of [obsidian2hugo.py]

    The script converts the notes of an Obsidian vault into Hugo page
    bundles.  This development embeds its text-processing core
    ([FRONT_MATTER_PATTERN], [parse_note_content], [calculate_md5] and the
    per-note loop of [process_notes]) and proves properties of it.

    Conventions of the embedding:
    - Python [str] and [bytes] are both [string]; a text is read over the
      ASCII code points, so the whitespace class of [str.strip] and of the
      regular expression escape [\s] is the set of code points 9-13, 28-31
      and 32.
    - Regular expressions are embedded as the backtracking matchers that
      the [re] module runs for them; each matcher quotes its pattern.
    - PyYAML ([yaml.safe_load], [yaml.dump]) is not part of the repository
      and is a parameter of the pipeline.
    - The file system, the log and the clock are explicit state, and a
      Python exception is the [Raise] outcome of a computation. *)

From Stdlib Require Import String Ascii List Bool Arith ZArith Lia.
Import ListNotations.
Local Open Scope string_scope.

Set Implicit Arguments.
Local Set Warnings "-register-all,-notation-for-abbreviation".

(** ** Characters and strings *)

Module Str.

Definition LF : ascii := "010"%char.
Definition backslash : ascii := "092"%char.
Definition nl : string := String LF "".

Definition is_newline (c : ascii) : bool := Ascii.eqb c LF.

(** [str.isspace] on one ASCII code point; also the class [\s] of [re]. *)
Definition is_space (c : ascii) : bool :=
  let n := nat_of_ascii c in
  (Nat.leb 9 n && Nat.leb n 13) || (Nat.leb 28 n && Nat.leb n 31)
  || Nat.eqb n 32.

(** [s.startswith(p)], returning the remainder [s[len(p):]] on success. *)
Fixpoint strip_prefix (p s : string) : option string :=
  match p with
  | EmptyString => Some s
  | String a p' =>
      match s with
      | EmptyString => None
      | String b s' => if Ascii.eqb a b then strip_prefix p' s' else None
      end
  end.

Definition startswith (p s : string) : bool :=
  match strip_prefix p s with Some _ => true | None => false end.

(** [s.lstrip()] *)
Fixpoint lstrip (s : string) : string :=
  match s with
  | EmptyString => EmptyString
  | String c s' => if is_space c then lstrip s' else s
  end.

Fixpoint rev_acc (s acc : string) : string :=
  match s with
  | EmptyString => acc
  | String c s' => rev_acc s' (String c acc)
  end.

Definition rev (s : string) : string := rev_acc s "".

(** [s.rstrip()] and [s.strip()] *)
Definition rstrip (s : string) : string := rev (lstrip (rev s)).
Definition strip (s : string) : string := rstrip (lstrip s).

(** [s.split(sep)] for a one-character separator: never returns the empty
    list, [''.split(',')] is [['']]. *)
Fixpoint split (sep : ascii) (s : string) : list string :=
  match s with
  | EmptyString => [""]
  | String c s' =>
      if Ascii.eqb c sep then "" :: split sep s'
      else match split sep s' with
           | [] => [String c ""]
           | w :: ws => String c w :: ws
           end
  end.

(** [sep.join(l)] *)
Fixpoint join (sep : string) (l : list string) : string :=
  match l with
  | [] => ""
  | [x] => x
  | x :: rest => x ++ sep ++ join sep rest
  end.

(** [s.replace(old, new)] for a non-empty [old]: every non-overlapping
    occurrence, left to right.  [skip] counts the characters of an
    occurrence that are still to be dropped. *)
Fixpoint replace_from (old new : string) (skip : nat) (s : string) : string :=
  match s with
  | EmptyString => EmptyString
  | String c s' =>
      match skip with
      | S k => replace_from old new k s'
      | O =>
          if startswith old s
          then new ++ replace_from old new (String.length old - 1) s'
          else String c (replace_from old new 0 s')
      end
  end.

Definition replace (old new s : string) : string := replace_from old new 0 s.

Fixpoint all_chars (f : ascii -> bool) (s : string) : bool :=
  match s with
  | EmptyString => true
  | String c s' => f c && all_chars f s'
  end.

Fixpoint contains (p s : string) : bool :=
  startswith p s ||
  match s with
  | EmptyString => false
  | String _ s' => contains p s'
  end.

Fixpoint take (n : nat) (s : string) : string :=
  match n, s with
  | S k, String c s' => String c (take k s')
  | _, _ => EmptyString
  end.

Fixpoint drop (n : nat) (s : string) : string :=
  match n, s with
  | S k, String _ s' => drop k s'
  | _, _ => s
  end.

End Str.
Import Str.

(** ** pathlib *)

Module PurePath.

(** Final path component, [PurePath(p).name]: empty components and [.]
    components are dropped when the path is parsed. *)
Definition name (p : string) : string :=
  last (filter (fun c => negb (String.eqb c "" || String.eqb c "."))
               (split "/" p)) "".

(** The characters of [s] after its last dot, reversed scan: [None] when
    [s] has no dot, otherwise (text before the dot, text after it). *)
Fixpoint rsplit_dot (s : string) : option (string * string) :=
  match s with
  | EmptyString => None
  | String c s' =>
      match rsplit_dot s' with
      | Some (pre, ext) => Some (String c pre, ext)
      | None => if Ascii.eqb c "." then Some ("", s') else None
      end
  end.

(** [PurePath.suffix]: [i = name.rfind('.')], the suffix is [name[i:]]
    when [0 < i < len(name) - 1] and [''] otherwise. *)
Definition suffix (p : string) : string :=
  match rsplit_dot (name p) with
  | Some (pre, ext) =>
      if String.eqb pre "" || String.eqb ext "" then "" else String "." ext
  | None => ""
  end.

(** [PurePath.stem] *)
Definition stem (p : string) : string :=
  match rsplit_dot (name p) with
  | Some (pre, ext) =>
      if String.eqb pre "" || String.eqb ext "" then name p else pre
  | None => name p
  end.

End PurePath.

(** ** The three regular expressions of the script *)

Module Re.

(** [^] under [re.MULTILINE]: start of the text or just after a newline.
    [prev] is the character before the current position. *)
Definition at_line_start (prev : option ascii) : bool :=
  match prev with
  | None => true
  | Some c => is_newline c
  end.

(** [$] under [re.MULTILINE]: end of the text or just before a newline. *)
Definition at_line_end (s : string) : bool :=
  match s with
  | EmptyString => true
  | String c _ => is_newline c
  end.

(** *** [FRONT_MATTER_PATTERN = r'^---\s*$(.*?)^---\s*'], DOTALL | MULTILINE *)

(** The tail [(.*?)^---\s*]: the lazy group grows one character at a time
    (any character, DOTALL) until [^---] matches; the final [\s*] is greedy
    and nothing follows it.  Result: (group 1, text after the match). *)
Fixpoint lazy_to_closing (prev : option ascii) (s : string)
  : option (string * string) :=
  match (if at_line_start prev then strip_prefix "---" s else None) with
  | Some r => Some ("", lstrip r)
  | None =>
      match s with
      | EmptyString => None
      | String c s' =>
          match lazy_to_closing (Some c) s' with
          | Some (g, r) => Some (String c g, r)
          | None => None
          end
      end
  end.

(** The part [\s*$] followed by the tail: the greedy star first takes as
    many whitespace characters as it can and gives them back one by one
    while the rest of the pattern fails. *)
Fixpoint greedy_ws_eol (prev : option ascii) (s : string)
  : option (string * string) :=
  let here := if at_line_end s then lazy_to_closing prev s else None in
  match s with
  | EmptyString => here
  | String c s' =>
      if is_space c then
        match greedy_ws_eol (Some c) s' with
        | Some r => Some r
        | None => here
        end
      else here
  end.

(** [FRONT_MATTER_PATTERN.match(s)]: anchored at position 0.  Result:
    [(match.group(1), s[match.end():])]. *)
Definition FRONT_MATTER_PATTERN_match (s : string)
  : option (string * string) :=
  match strip_prefix "---" s with
  | Some r => greedy_ws_eol (Some "-"%char) r
  | None => None
  end.

(** *** The shared tail [(.*?)\]\]] (no DOTALL: [.] is not a newline) *)

Fixpoint lazy_until_close (s : string) : option (string * string) :=
  match strip_prefix "]]" s with
  | Some r => Some ("", r)
  | None =>
      match s with
      | EmptyString => None
      | String c s' =>
          if is_newline c then None
          else match lazy_until_close s' with
               | Some (g, r) => Some (String c g, r)
               | None => None
               end
      end
  end.

(** *** [attachment_pattern = r'!\[\[(.*?)\]\]'] *)

Definition match_attachment_pattern (s : string)
  : option (string * string) :=
  match strip_prefix "![[" s with
  | Some r => lazy_until_close r
  | None => None
  end.

(** [re.finditer(attachment_pattern, s)] as the list of
    [(match.group(0), match.group(1))], in order, non-overlapping. *)
Fixpoint finditer_attachment_pattern_from (skip : nat) (s : string)
  : list (string * string) :=
  match s with
  | EmptyString => []
  | String _ s' =>
      match skip with
      | S k => finditer_attachment_pattern_from k s'
      | O =>
          match match_attachment_pattern s with
          | Some (g, _) =>
              let rest :=
                finditer_attachment_pattern_from (String.length g + 4) s' in
              ("![[" ++ g ++ "]]", g) :: rest
          | None => finditer_attachment_pattern_from 0 s'
          end
      end
  end.

Definition finditer_attachment_pattern (s : string)
  : list (string * string) :=
  finditer_attachment_pattern_from 0 s.

(** *** [wikilink_pattern = r'(?<!\\!)\[\[(.*?)\]\]']

    In the raw string the lookbehind body is the three characters
    backslash, backslash, exclamation mark: an escaped backslash followed
    by [!].  The assertion therefore looks at the TWO characters before the
    position and fails only when they are a backslash and an exclamation
    mark. *)
Definition lookbehind_ok (p2 p1 : option ascii) : bool :=
  negb (match p2, p1 with
        | Some a, Some b => Ascii.eqb a backslash && Ascii.eqb b "!"
        | _, _ => false
        end).

Definition match_wikilink_pattern (p2 p1 : option ascii) (s : string)
  : option (string * string) :=
  if lookbehind_ok p2 p1 then
    match strip_prefix "[[" s with
    | Some r => lazy_until_close r
    | None => None
    end
  else None.

(** [re.search(wikilink_pattern, s) is not None] *)
Fixpoint search_wikilink_pattern_from (p2 p1 : option ascii) (s : string)
  : bool :=
  match s with
  | EmptyString => false
  | String c s' =>
      match match_wikilink_pattern p2 p1 s with
      | Some _ => true
      | None => search_wikilink_pattern_from p1 (Some c) s'
      end
  end.

Definition search_wikilink_pattern (s : string) : bool :=
  search_wikilink_pattern_from None None s.

(** [re.sub(wikilink_pattern, r'\1', s)] *)
Fixpoint sub_wikilink_pattern_from (skip : nat) (p2 p1 : option ascii)
    (s : string) : string :=
  match s with
  | EmptyString => EmptyString
  | String c s' =>
      match skip with
      | S k => sub_wikilink_pattern_from k p1 (Some c) s'
      | O =>
          match match_wikilink_pattern p2 p1 s with
          | Some (g, _) =>
              g ++ sub_wikilink_pattern_from (String.length g + 3)
                                             p1 (Some c) s'
          | None => String c (sub_wikilink_pattern_from 0 p1 (Some c) s')
          end
      end
  end.

Definition sub_wikilink_pattern (s : string) : string :=
  sub_wikilink_pattern_from 0 None None s.

End Re.

(** ** hashlib.md5 (RFC 1321) *)

Module MD5.

Local Open Scope Z_scope.

Definition mask32 (x : Z) : Z := Z.land x 0xffffffff.
Definition not32 (x : Z) : Z := Z.lxor x 0xffffffff.
Definition rotl32 (x c : Z) : Z :=
  mask32 (Z.lor (Z.shiftl x c) (Z.shiftr x (32 - c))).

(** [K[i] = floor(2^32 * abs(sin(i + 1)))] *)
Definition K : list Z :=
  [
    0xd76aa478; 0xe8c7b756; 0x242070db; 0xc1bdceee;
    0xf57c0faf; 0x4787c62a; 0xa8304613; 0xfd469501;
    0x698098d8; 0x8b44f7af; 0xffff5bb1; 0x895cd7be;
    0x6b901122; 0xfd987193; 0xa679438e; 0x49b40821;
    0xf61e2562; 0xc040b340; 0x265e5a51; 0xe9b6c7aa;
    0xd62f105d; 0x02441453; 0xd8a1e681; 0xe7d3fbc8;
    0x21e1cde6; 0xc33707d6; 0xf4d50d87; 0x455a14ed;
    0xa9e3e905; 0xfcefa3f8; 0x676f02d9; 0x8d2a4c8a;
    0xfffa3942; 0x8771f681; 0x6d9d6122; 0xfde5380c;
    0xa4beea44; 0x4bdecfa9; 0xf6bb4b60; 0xbebfbc70;
    0x289b7ec6; 0xeaa127fa; 0xd4ef3085; 0x04881d05;
    0xd9d4d039; 0xe6db99e5; 0x1fa27cf8; 0xc4ac5665;
    0xf4292244; 0x432aff97; 0xab9423a7; 0xfc93a039;
    0x655b59c3; 0x8f0ccc92; 0xffeff47d; 0x85845dd1;
    0x6fa87e4f; 0xfe2ce6e0; 0xa3014314; 0x4e0811a1;
    0xf7537e82; 0xbd3af235; 0x2ad7d2bb; 0xeb86d391
  ].

Definition shifts : list Z :=
  [ 7; 12; 17; 22; 7; 12; 17; 22; 7; 12; 17; 22; 7; 12; 17; 22;
    5; 9; 14; 20; 5; 9; 14; 20; 5; 9; 14; 20; 5; 9; 14; 20;
    4; 11; 16; 23; 4; 11; 16; 23; 4; 11; 16; 23; 4; 11; 16; 23;
    6; 10; 15; 21; 6; 10; 15; 21; 6; 10; 15; 21; 6; 10; 15; 21 ].

Definition bytes_of (s : string) : list Z :=
  map (fun c => Z.of_nat (nat_of_ascii c)) (list_ascii_of_string s).

(** Little-endian bytes of [x], [n] of them. *)
Fixpoint le_bytes (n : nat) (x : Z) : list Z :=
  match n with
  | O => []
  | S k => Z.land x 0xff :: le_bytes k (Z.shiftr x 8)
  end.

Fixpoint le_word (bs : list Z) : Z :=
  match bs with
  | [] => 0
  | b :: rest => Z.lor b (Z.shiftl (le_word rest) 8)
  end.

(** The message followed by the bit 1, zero bits up to 56 modulo 64 bytes
    and the bit length on 64 bits. *)
Definition pad (msg : list Z) : list Z :=
  let len := Z.of_nat (List.length msg) in
  msg ++ [0x80] ++ repeat 0 (Z.to_nat ((55 - len) mod 64))
      ++ le_bytes 8 (Z.land (8 * len) 0xffffffffffffffff).

Fixpoint groups (fuel n : nat) (l : list Z) : list (list Z) :=
  match fuel with
  | O => []
  | S f =>
      match l with
      | [] => []
      | _ => firstn n l :: groups f n (skipn n l)
      end
  end.

Definition words (block : list Z) : list Z :=
  map le_word (groups 16 4 block).

Definition state : Type := Z * Z * Z * Z.

Definition init : state := (0x67452301, 0xefcdab89, 0x98badcfe, 0x10325476).

Definition round (M : list Z) (st : state) (i : nat) : state :=
  let '(A, B, C, D) := st in
  let '(F, g) :=
    if Nat.ltb i 16 then
      (Z.lor (Z.land B C) (Z.land (not32 B) D), i)
    else if Nat.ltb i 32 then
      (Z.lor (Z.land D B) (Z.land (not32 D) C), Nat.modulo (5 * i + 1) 16)
    else if Nat.ltb i 48 then
      (Z.lxor B (Z.lxor C D), Nat.modulo (3 * i + 5) 16)
    else
      (Z.lxor C (Z.lor B (not32 D)), Nat.modulo (7 * i) 16) in
  let F' := mask32 (F + A + nth i K 0 + nth g M 0) in
  (D, mask32 (B + rotl32 F' (nth i shifts 0)), B, C).

Definition compress (st : state) (block : list Z) : state :=
  let '(a0, b0, c0, d0) := st in
  let '(A, B, C, D) := fold_left (round (words block)) (seq 0 64) st in
  (mask32 (a0 + A), mask32 (b0 + B), mask32 (c0 + C), mask32 (d0 + D)).

Definition hex_digit (d : Z) : ascii :=
  nth (Z.to_nat d)
      (list_ascii_of_string "0123456789abcdef") "0"%char.

Definition hex_byte (b : Z) : string :=
  String (hex_digit (Z.shiftr b 4)) (String (hex_digit (Z.land b 0xf)) "").

(** [hashlib.md5(data).hexdigest()] *)
Definition hexdigest (data : string) : string :=
  let msg := pad (bytes_of data) in
  let '(a, b, c, d) :=
    fold_left compress (groups (List.length msg) 64 msg) init in
  String.concat ""
    (map hex_byte
         (le_bytes 4 a ++ le_bytes 4 b ++ le_bytes 4 c ++ le_bytes 4 d)).

End MD5.

(** ** Python values *)

Module Py.

(** The values [yaml.safe_load] builds.  [PDate] stands for the
    [datetime.date] and [datetime.datetime] objects of YAML timestamps.
    A [PDict] keeps its items in insertion order. *)
Inductive value : Type :=
| PNone
| PBool (b : bool)
| PInt (z : Z)
| PStr (s : string)
| PDate (iso : string)
| PList (l : list value)
| PDict (d : list (value * value)).

Definition dict : Type := list (value * value).

(** [bool(v)] *)
Definition truthy (v : value) : bool :=
  match v with
  | PNone => false
  | PBool b => b
  | PInt z => negb (Z.eqb z 0)
  | PStr s => negb (String.eqb s "")
  | PDate _ => true
  | PList l => match l with [] => false | _ => true end
  | PDict d => match d with [] => false | _ => true end
  end.

(** [v == t] for a [str] [t]: only an equal [str] is equal to it. *)
Definition str_eq (t : string) (v : value) : bool :=
  match v with
  | PStr s => String.eqb s t
  | _ => false
  end.

(** [d.get(k)] for a [str] key; [None] is the absent key. *)
Fixpoint dict_get (k : string) (d : dict) : option value :=
  match d with
  | [] => None
  | (k', v) :: rest => if str_eq k k' then Some v else dict_get k rest
  end.

(** [k in d] *)
Definition dict_has (k : string) (d : dict) : bool :=
  existsb (fun e => str_eq k (fst e)) d.

(** [d[k] = v]: an existing key keeps its place, a new key goes last. *)
Fixpoint dict_set (k : string) (v : value) (d : dict) : dict :=
  match d with
  | [] => [(PStr k, v)]
  | (k', v') :: rest =>
      if str_eq k k' then (k', v) :: rest
      else (k', v') :: dict_set k v rest
  end.

(** [del d[k]] *)
Definition dict_del (k : string) (d : dict) : dict :=
  filter (fun e => negb (str_eq k (fst e))) d.

(** [not d.get(k)] *)
Definition get_is_falsy (k : string) (d : dict) : bool :=
  match dict_get k d with
  | Some v => negb (truthy v)
  | None => true
  end.

End Py.
Import Py.

(** ** Exceptions, the log, the file system and the state monad *)

Inductive exn : Type :=
| AttributeError
| TypeError
| ValueError
| YAMLError
| FileNotFoundError
| FileExistsError
| IsADirectoryError
| PermissionError
| UnicodeDecodeError.

Inductive level : Type := DEBUG | INFO | WARNING | ERROR.

(** One constructor per [logging] call of the script, with the values its
    message interpolates. *)
Inductive message : Type :=
| Scanning
| Excluding (dirs : list string)
| SkipExcluded (note_path : list string)
| Checking (note_path : list string)
| YamlIgnored
| SkipNoTag (note_name filter_tag : string)
| Processing (note_name filter_tag : string)
| RemovingTag (filter_tag : string)
| TitleDefaulted (stem : string)
| DateDefaulted (now_str : string)
| BundleDir (bundle : string)
| AttachmentMissing (original_filename : string)
| HashFileNotFound (file_path : string)
| Copying (original_filename new_filename : string)
| UpdatingLinks
| UpdatingWikilinks
| Saved (bundle : string)
| Finished.

(** What a path of the input side (a note, an attachment) is when the
    script touches it. *)
Inductive file_state : Type :=
| Absent                      (* [exists()] is false *)
| Regular (data : string)     (* a readable regular file *)
| Unreadable (e : exn).       (* it exists, and [open] raises [e] *)

(** The output side: paths below [hugo_posts_dir], [[]] being that
    directory itself. *)
Inductive node : Type :=
| Dir
| File (data : string).

Definition path : Type := list string.

Definition path_eqb (p q : path) : bool :=
  if list_eq_dec string_dec p q then true else false.

Record world : Type := mkWorld {
  files : list (path * node);
  log : list (level * message);
  clock : nat
}.

Inductive outcome (A : Type) : Type :=
| Return (a : A) (w : world)
| Raise (e : exn) (w : world).

Arguments Raise {A} e w.

Definition M (A : Type) : Type := world -> outcome A.

Definition ret {A} (a : A) : M A := fun w => Return a w.
Definition raise {A} (e : exn) : M A := fun w => Raise e w.

Definition bind {A B} (c : M A) (k : A -> M B) : M B :=
  fun w =>
    match c w with
    | Return a w' => k a w'
    | Raise e w' => Raise e w'
    end.

Declare Scope py_scope.
Delimit Scope py_scope with py.
Notation "x <- c ;; k" := (bind c (fun x => k))
  (at level 61, c at next level, right associativity) : py_scope.
Notation "' pat <- c ;; k" := (bind c (fun x => match x with pat => k end))
  (at level 61, pat pattern, c at next level, right associativity) : py_scope.
Notation "c ;; k" := (bind c (fun _ => k))
  (at level 61, right associativity) : py_scope.
Local Open Scope py_scope.

(** [try: c  except <the exceptions h selects>: handler] *)
Definition try_except {A} (c : M A) (h : exn -> option (M A)) : M A :=
  fun w =>
    match c w with
    | Return a w' => Return a w'
    | Raise e w' =>
        match h e with
        | Some handler => handler w'
        | None => Raise e w'
        end
    end.

(** The world after one more log record. *)
Definition logged (l : level) (m : message) (w : world) : world :=
  mkWorld (files w) (log w ++ [(l, m)])%list (clock w).

Definition logging (l : level) (m : message) : M unit :=
  fun w => Return tt (logged l m w).

Definition world_of {A} (o : outcome A) : world :=
  match o with
  | Return _ w => w
  | Raise _ w => w
  end.

Definition raised {A} (o : outcome A) : option exn :=
  match o with
  | Return _ _ => None
  | Raise e _ => Some e
  end.

(** [for x in l: body(x)] *)
Fixpoint for_each {A} (l : list A) (body : A -> M unit) : M unit :=
  match l with
  | [] => ret tt
  | x :: rest => body x ;; for_each rest body
  end.

Definition when (b : bool) (c : M unit) : M unit := if b then c else ret tt.

(** *** File operations *)

Fixpoint fs_lookup (p : path) (fs : list (path * node)) : option node :=
  match fs with
  | [] => None
  | (q, n) :: rest => if path_eqb p q then Some n else fs_lookup p rest
  end.

Fixpoint fs_put (p : path) (n : node) (fs : list (path * node))
  : list (path * node) :=
  match fs with
  | [] => [(p, n)]
  | (q, m) :: rest =>
      if path_eqb p q then (q, n) :: rest else (q, m) :: fs_put p n rest
  end.

Definition set_files (fs : list (path * node)) (w : world) : world :=
  mkWorld fs (log w) (clock w).

(** [Path.mkdir(exist_ok=True)] *)
Definition mkdir_exist_ok (p : path) : M unit :=
  fun w =>
    match fs_lookup p (files w) with
    | Some Dir => Return tt w
    | Some (File _) => Raise FileExistsError w
    | None => Return tt (set_files (fs_put p Dir (files w)) w)
    end.

(** [open(p, 'w')] followed by the writes and the close. *)
Definition write_file (p : path) (data : string) : M unit :=
  fun w =>
    match fs_lookup p (files w) with
    | Some Dir => Raise IsADirectoryError w
    | _ => Return tt (set_files (fs_put p (File data) (files w)) w)
    end.

(** [open(p, 'r')] or [open(p, 'rb')] followed by reading all of it. *)
Definition read_file (f : file_state) : M string :=
  match f with
  | Regular data => ret data
  | Absent => raise FileNotFoundError
  | Unreadable e => raise e
  end.

(** [shutil.copy2(src, dst)]: a destination that is a directory receives
    the file under the source's name. *)
Definition copy2 (src_name : string) (src : file_state) (dst : path)
  : M unit :=
  data <- read_file src ;;
  fun w =>
    match fs_lookup dst (files w) with
    | Some Dir => write_file (dst ++ [PurePath.name src_name])%list data w
    | _ => write_file dst data w
    end.

(** [iter(lambda: f.read(n), b"")]: the chunks of [n] bytes up to the
    first empty read. *)
Fixpoint read_chunks (fuel n : nat) (data : string) : list string :=
  match fuel with
  | O => []
  | S k =>
      match data with
      | EmptyString => []
      | _ => take n data :: read_chunks k n (drop n data)
      end
  end.

(** [datetime.now(tz=...).isoformat()] *)
Definition now_isoformat (now : nat -> string) : M string :=
  fun w => Return (now (clock w)) (mkWorld (files w) (log w) (S (clock w))).

(** ** The script *)

Record note_file : Type := mkNote {
  note_dir : list string;      (* directories below [notes_dir] *)
  note_name : string;          (* file name, matching [*.md] *)
  note_src : file_state
}.

Definition note_path (n : note_file) : path :=
  (note_dir n ++ [note_name n])%list.

Fixpoint is_relative_to (p base : path) : bool :=
  match base, p with
  | [], _ => true
  | b :: base', c :: p' => String.eqb b c && is_relative_to p' base'
  | _ :: _, [] => false
  end.

Section Script.

(** PyYAML. *)
Variable yaml_safe_load : string -> value + exn.
Variable yaml_dump : value -> string.

(** The state of [attachments_dir / name], and the clock. *)
Variable attachment : string -> file_state.
Variable now : nat -> string.

(** Command-line options. *)
Variable filter_tag : string.
Variable remove_filter_tag : bool.
Variable exclude_dirs : list string.

Definition CHUNK : nat := 4096.

(** [calculate_md5(file_path)]; a [hashlib.md5] object is the bytes it has
    been fed. *)
Definition calculate_md5 (file_path : string) (f : file_state)
  : M (option string) :=
  try_except
    (data <- read_file f ;;
     let hash_md5 :=
       fold_left (fun h chunk => h ++ chunk)
                 (read_chunks (S (String.length data)) CHUNK data) "" in
     ret (Some (MD5.hexdigest hash_md5)))
    (fun e =>
       match e with
       | FileNotFoundError =>
           Some (logging WARNING (HashFileNotFound file_path) ;; ret None)
       | _ => None
       end).

(** [parse_note_content(full_content)] *)
Definition parse_note_content (full_content : string)
  : M (value * string) :=
  match Re.FRONT_MATTER_PATTERN_match full_content with
  | None => ret (PDict [], full_content)
  | Some (yaml_content, rest) =>
      let note_body := lstrip rest in
      try_except
        (loaded <- (match yaml_safe_load yaml_content with
                    | inl v => ret v
                    | inr e => raise e
                    end) ;;
         let properties := if truthy loaded then loaded else PDict [] in
         ret (properties, note_body))
        (fun e =>
           match e with
           | YAMLError =>
               Some (logging WARNING YamlIgnored ;;
                     ret (PDict [], full_content))
           | _ => None
           end)
  end.

(** Looking up [properties.get]: only a mapping has the method. *)
Definition get_method (properties : value) : M dict :=
  match properties with
  | PDict d => ret d
  | _ => raise AttributeError
  end.

(** The tag check: [tags_list] from [tags_from_note]. *)
Definition normalize_tags (tags_from_note : value) : value :=
  match tags_from_note with
  | PStr s => PList (map (fun tag => PStr (strip tag)) (split "," s))
  | v => if truthy v then v else PList []
  end.

(** Iterating a value: the elements of a list, the keys of a mapping, the
    characters of a string; nothing else is iterable. *)
Definition py_iter (v : value) : M (list value) :=
  match v with
  | PList l => ret l
  | PDict d => ret (map fst d)
  | PStr s => ret (map (fun c => PStr (String c "")) (list_ascii_of_string s))
  | _ => raise TypeError
  end.

(** [t in v] for a [str] [t] *)
Definition py_in (t : string) (v : value) : M bool :=
  match v with
  | PStr s => ret (contains t s)
  | _ => l <- py_iter v ;; ret (existsb (str_eq t) l)
  end.

(** The tag update. *)
Definition update_tags (tags_list : value) (properties : dict) : M dict :=
  if remove_filter_tag then
    logging DEBUG (RemovingTag filter_tag) ;;
    l <- py_iter tags_list ;;
    let updated_tags := filter (fun t => negb (str_eq filter_tag t)) l in
    match updated_tags with
    | _ :: _ => ret (dict_set "tags" (PList updated_tags) properties)
    | [] =>
        if dict_has "tags" properties then ret (dict_del "tags" properties)
        else ret properties
    end
  else ret (dict_set "tags" tags_list properties).

(** The front matter defaults. *)
Definition default_title (stem : string) (properties : dict) : M dict :=
  if get_is_falsy "title" properties then
    logging DEBUG (TitleDefaulted stem) ;;
    ret (dict_set "title" (PStr stem) properties)
  else ret properties.

Definition default_date (properties : dict) : M dict :=
  if get_is_falsy "date" properties then
    now_str <- now_isoformat now ;;
    logging DEBUG (DateDefaulted now_str) ;;
    ret (dict_set "date" (PStr now_str) properties)
  else ret properties.

(** The target name of an attachment. *)
Definition new_filename (md5_hash original_filename : string) : string :=
  md5_hash ++ PurePath.suffix original_filename.

(** The loop over [re.finditer(attachment_pattern, content)]; it returns
    [replacements]. *)
Fixpoint resolve_attachments (bundle : string)
    (matches : list (string * string)) (replacements : list (string * string))
  : M (list (string * string)) :=
  match matches with
  | [] => ret replacements
  | (original_link_text, original_filename) :: rest =>
      match attachment original_filename with
      | Absent =>
          logging WARNING (AttachmentMissing original_filename) ;;
          resolve_attachments bundle rest replacements
      | source =>
          md5_hash <- calculate_md5 original_filename source ;;
          match md5_hash with
          | None => resolve_attachments bundle rest replacements
          | Some h =>
              if String.eqb h "" then
                resolve_attachments bundle rest replacements
              else
                logging DEBUG
                  (Copying original_filename
                           (new_filename h original_filename)) ;;
                copy2 original_filename source
                      [bundle; new_filename h original_filename] ;;
                resolve_attachments bundle rest
                  (List.app replacements
                     [(original_link_text,
                       "![](" ++ new_filename h original_filename ++ ")")])
          end
      end
  end.

(** Applying the replacements. *)
Definition apply_replacements (replacements : list (string * string))
    (content : string) : M string :=
  match replacements with
  | [] => ret content
  | _ =>
      logging INFO UpdatingLinks ;;
      ret (fold_left (fun c r => replace (fst r) (snd r) c)
                     replacements content)
  end.

(** The wiki-link step. *)
Definition strip_wikilinks (content : string) : M string :=
  if Re.search_wikilink_pattern content then
    logging INFO UpdatingWikilinks ;;
    ret (Re.sub_wikilink_pattern content)
  else ret content.

(** The text written to [index.md]. *)
Definition index_text (properties : dict) (content : string) : string :=
  "---" ++ nl ++ yaml_dump (PDict properties) ++ "---" ++ nl ++ nl ++ content.

(** The mapping that is written: the tag update and the two defaults. *)
Definition prepare_properties (stem : string) (tags_list : value)
    (properties : dict) : M dict :=
  properties <- update_tags tags_list properties ;;
  properties <- default_title stem properties ;;
  default_date properties.

(** The body rewriting: attachments, then wiki-links. *)
Definition rewrite_content (stem content : string) : M string :=
  replacements <-
    resolve_attachments stem (Re.finditer_attachment_pattern content) [] ;;
  content <- apply_replacements replacements content ;;
  strip_wikilinks content.

(** The body of the loop once the note has passed the tag check. *)
Definition emit_note (n : note_file) (tags_list : value)
    (properties : dict) (content : string) : M unit :=
  let stem := PurePath.stem (note_name n) in
  logging INFO (Processing (note_name n) filter_tag) ;;
  properties <- prepare_properties stem tags_list properties ;;
  mkdir_exist_ok [stem] ;;
  logging INFO (BundleDir stem) ;;
  content <- rewrite_content stem content ;;
  write_file [stem; "index.md"] (index_text properties content) ;;
  logging INFO (Saved stem).

(** [notes_dir.joinpath(d).resolve()] as components below [notes_dir],
    for names that stay below it (relative, without [..]). *)
Definition abs_exclude_paths : list path :=
  map (fun d =>
         filter (fun c => negb (String.eqb c "" || String.eqb c "."))
                (split "/" d))
      exclude_dirs.

Definition excluded (n : note_file) : bool :=
  existsb (is_relative_to (note_path n)) abs_exclude_paths.

(** One turn of [for note_path in notes_dir.rglob('*.md')]. *)
Definition process_note (n : note_file) : M unit :=
  if excluded n then logging DEBUG (SkipExcluded (note_path n))
  else
    logging INFO (Checking (note_path n)) ;;
    full_content <- read_file (note_src n) ;;
    parsed <- parse_note_content full_content ;;
    properties <- get_method (fst parsed) ;;
    let tags_from_note :=
      match dict_get "tags" properties with
      | Some v => v
      | None => PList []
      end in
    let tags_list := normalize_tags tags_from_note in
    found <- py_in filter_tag tags_list ;;
    if negb found then logging DEBUG (SkipNoTag (note_name n) filter_tag)
    else emit_note n tags_list properties (snd parsed).

(** What [process_notes] does before the loop. *)
Definition prologue : M unit :=
  mkdir_exist_ok [] ;;
  logging INFO Scanning ;;
  when (match abs_exclude_paths with [] => false | _ => true end)
       (logging INFO (Excluding exclude_dirs)).

(** [process_notes(...)]; [notes] is what [notes_dir.rglob('*.md')]
    yields, in its order. *)
Definition process_notes (notes : list note_file) : M unit :=
  prologue ;;
  for_each notes process_note ;;
  logging INFO Finished.

End Script.

(** ** Notions used to state the properties *)

Module Shape.

(** The character before the position reached after reading [g], [prev]
    being the one before [g]. *)
Fixpoint last_char (prev : option ascii) (g : string) : option ascii :=
  match g with
  | EmptyString => prev
  | String c g' => last_char (Some c) g'
  end.

(** [p] and [y] agree as far as both go: some extension of [y] starts
    with [p]. *)
Fixpoint compatible (p y : string) : bool :=
  match p, y with
  | String a p', String b y' => Ascii.eqb a b && compatible p' y'
  | _, _ => true
  end.

(** No line of [y] begins a [---], [prev] being the character before
    [y]. *)
Fixpoint delim_free (prev : option ascii) (y : string) : bool :=
  match y with
  | EmptyString => true
  | String c y' =>
      negb (Re.at_line_start prev && compatible "---" y)
      && delim_free (Some c) y'
  end.

(** The shape of a recognised front-matter block: [full] is [---], blanks,
    the captured region [g], a [---] at the start of a line, blanks, and
    [rest].  The region starts and ends with a newline and no earlier line
    start inside it carries a [---]. *)
Definition block_shape (full g rest : string) : Prop :=
  exists ws ws',
    full = "---" ++ ws ++ g ++ "---" ++ ws' ++ rest
    /\ all_chars is_space ws = true
    /\ all_chars is_space ws' = true
    /\ lstrip rest = rest
    /\ startswith nl g = true
    /\ last_char None g = Some LF
    /\ (forall g1 t,
          g ++ "---" ++ ws' ++ rest = g1 ++ t ->
          String.length g1 < String.length g ->
          last_char None g1 = Some LF ->
          startswith "---" t = false).

(** A dumped header the pattern reads back whole: it starts with a
    character that is not blank, ends with a newline and none of its lines
    begins a [---]. *)
Definition well_dumped (y : string) : bool :=
  match y with
  | EmptyString => false
  | String c _ => negb (is_space c)
  end
  && match last_char None y with
     | Some c => is_newline c
     | None => false
     end
  && delim_free (Some LF) y.

End Shape.
Import Shape.

(** ** The tag filter in the words of the specification *)

Module Spec.

Definition comma_free (t : string) : bool :=
  all_chars (fun c => negb (Ascii.eqb c ",")) t.

(** A text with no blank at either end. *)
Definition no_blank_ends (t : string) : bool :=
  match t with
  | EmptyString => true
  | String c _ =>
      negb (is_space c)
      && match last_char None t with
         | Some z => negb (is_space z)
         | None => true
         end
  end.



(** The note passes when the selection tag is an exact member. *)
Definition selected (filter_tag : string) (tags : list value) : bool :=
  existsb (str_eq filter_tag) tags.

(** A tag that the comma-separated form can carry: no comma in it and no
    blank around it. *)
Definition plain_tag (t : string) : Prop :=
  comma_free t = true /\ no_blank_ends t = true.




(** The tags removed of the selection tag. *)
Definition without (filter_tag : string) (tags : list value) : list value :=
  filter (fun t => negb (str_eq filter_tag t)) tags.

End Spec.

(** ** Fixtures: PyYAML on the texts of the examples *)

Module Fixture.

(** [yaml.safe_load] restricted to a finite table of its answers; any other
    text is reported as a parse error. *)
Definition load_table (tbl : list (string * (value + exn))) (s : string)
  : value + exn :=
  match find (fun e => String.eqb (fst e) s) tbl with
  | Some e => snd e
  | None => inr YAMLError
  end.

(** [yaml.dump(..., default_flow_style=False, sort_keys=False)] for a
    mapping from plain keys to plain strings and lists of plain strings:
    one [key: value] line per scalar, one [- item] line per list item; a
    string that starts with a digit (here: a timestamp) is single-quoted. *)
Definition dump_item (e : value * value) : string :=
  match e with
  | (PStr k, PStr v) =>
      match v with
      | String c _ =>
          if Nat.leb 48 (nat_of_ascii c) && Nat.leb (nat_of_ascii c) 57
          then k ++ ": '" ++ v ++ "'" ++ nl
          else k ++ ": " ++ v ++ nl
      | EmptyString => k ++ ": ''" ++ nl
      end
  | (PStr k, PList l) =>
      k ++ ":" ++ nl ++
      String.concat ""
        (map (fun x => match x with
                       | PStr t => "- " ++ t ++ nl
                       | _ => ""
                       end) l)
  | _ => ""
  end.

Definition dump_block (v : value) : string :=
  match v with
  | PDict d => String.concat "" (map dump_item d)
  | _ => ""
  end.

Definition empty_world : world := mkWorld [] [] 0.

Definition text (lines : list string) : string := join nl lines.

(** The notes of the examples. *)
Definition foo_md : string :=
  text ["---"; "tags: [blog, draft]"; "---"; "See ![[diagram.png]]"].

Definition missing_md : string :=
  text ["---"; "tags: blog"; "---"; "See ![[missing.png]]"].

Definition link_md : string :=
  text ["---"; "tags: blog"; "---"; "[[ Home]] is where it starts"].

Definition secret_md : string :=
  text ["---"; "tags: blog"; "---"; "![[secret.png]] and ![[diagram.png]]"].

Definition twins_md : string :=
  text ["---"; "tags: blog"; "---"; "![[copy.png]] ![[copy.jpg]]"].

Definition empty_list_md : string := text ["---"; "[]"; "---"; "body"].

Definition items_md : string := text ["---"; "- a"; "- b"; "---"; "body"].

(** A header closed by a line that goes on after the dashes. *)
Definition trailing_text_md : string :=
  text ["---"; "title: x"; "---foo"; "body"].

Definition plain_md : string := text ["# Heading"; "no header here"].





Definition stamp : string := "2024-05-01T12:00:00+03:00".

Definition clock (n : nat) : string := stamp.

(** The mapping written for [link_md], and its dumped form. *)
Definition link_properties : dict :=
  [ (PStr "tags", PList [PStr "blog"]);
    (PStr "title", PStr "Link");
    (PStr "date", PStr stamp) ].

Definition link_header : string :=
  text ["tags:"; "- blog"; "title: Link"; "date: '" ++ stamp ++ "'"; ""].

(** What [yaml.safe_load] answers on the captured regions above. *)
Definition pyyaml : string -> value + exn :=
  load_table
    [ (nl ++ "tags: [blog, draft]" ++ nl,
       inl (PDict [(PStr "tags", PList [PStr "blog"; PStr "draft"])]));
      (nl ++ "tags: blog" ++ nl,
       inl (PDict [(PStr "tags", PStr "blog")]));
      (nl ++ "[]" ++ nl, inl (PList []));
      (nl ++ text ["- a"; "- b"; ""], inl (PList [PStr "a"; PStr "b"]));
      (nl ++ "tags: [blog" ++ nl, inr YAMLError);
      (nl ++ text ["tags: blog"; "date: 2024-02-30"; ""], inr ValueError);
      (nl ++ "tags: ' blog'" ++ nl,
       inl (PDict [(PStr "tags", PStr " blog")]));
      (nl ++ "tags: [' blog']" ++ nl,
       inl (PDict [(PStr "tags", PList [PStr " blog"])]));
      (nl ++ link_header, inl (PDict link_properties)) ].

(** The attachments directory. *)
Definition attachments (name : string) : file_state :=
  if String.eqb name "diagram.png" then Regular "PNG"
  else if String.eqb name "copy.png" then Regular "same bytes"
  else if String.eqb name "copy.jpg" then Regular "same bytes"
  else if String.eqb name "mirror.png" then Regular "same bytes"
  else if String.eqb name "secret.png" then Unreadable PermissionError
  else if String.eqb name "gone.png" then Unreadable FileNotFoundError
  else Absent.

(** The script on the fixtures, from an empty output tree. *)
Definition convert (filter_tag : string) (remove_filter_tag : bool)
    (notes : list note_file) : outcome unit :=
  process_notes pyyaml dump_block attachments clock
                filter_tag remove_filter_tag [] notes empty_world.

Definition written (o : outcome unit) (p : path) : option node :=
  fs_lookup p (files (world_of o)).

Definition note (name text : string) : note_file :=
  mkNote [] name (Regular text).

Definition locked_note : note_file :=
  mkNote [] "Locked.md" (Unreadable PermissionError).

End Fixture.


(** ** Notions for the properties of a whole run *)

Module Frame.

(** [c] relates every world to the world it leaves, whether it returns
    or raises. *)
Definition preserves (R : world -> world -> Prop) {A} (c : M A) : Prop :=
  forall w, R w (world_of (c w)).

(** Nothing is lost: the log is only appended to, a directory of the
    output tree stays a directory, a file stays a file (its content may
    change), and the clock does not go back. *)
Definition grows (w w' : world) : Prop :=
  (exists more, log w' = (log w ++ more)%list)
  /\ (forall p, fs_lookup p (files w) = Some Dir ->
                fs_lookup p (files w') = Some Dir)
  /\ (forall p d, fs_lookup p (files w) = Some (File d) ->
                  exists d', fs_lookup p (files w') = Some (File d'))
  /\ clock w <= clock w'.

(** The paths that [ok] does not allow are what they were. *)
Definition same_outside (ok : path -> bool) (w w' : world) : Prop :=
  forall q, ok q = false -> fs_lookup q (files w') = fs_lookup q (files w).

(** A stem that names a directory of its own below the posts directory.
    The stem of the note [..md] is [.] and that of [...md] is [..];
    [hugo_posts_dir / stem] is then the posts directory itself,
    respectively its parent, and not a directory below it. *)
Definition plain_stem (n : note_file) : bool :=
  negb (String.eqb (PurePath.stem (note_name n)) "."
        || String.eqb (PurePath.stem (note_name n)) "..").

(** The bundle directory [hugo_posts_dir / stem] of a note with a plain
    stem, as components below the posts directory. *)
Definition bundle_of (n : note_file) : path := [PurePath.stem (note_name n)].

(** The paths a run over [notes] may write: the posts directory itself
    and what lies at or below the bundle of one of the notes. *)
Definition run_may_write (notes : list note_file) (q : path) : bool :=
  path_eqb q [] || existsb (fun n => is_relative_to q (bundle_of n)) notes.

(** The same value returned, or the same exception raised. *)
Definition same_result {A} (o1 o2 : outcome A) : Prop :=
  match o1, o2 with
  | Return a _, Return b _ => a = b
  | Raise e _, Raise f _ => e = f
  | _, _ => False
  end.

(** Two output trees with the same content at every path. *)
Definition same_tree (f1 f2 : list (path * node)) : Prop :=
  forall q, fs_lookup q f1 = fs_lookup q f2.

(** While a run is repeated on the tree [final] that it left: every path
    of the second run's tree [w2] holds what [final] holds or what the
    first run's tree [w1] holds at the same point. *)
Definition catching_up (final : list (path * node)) (w1 w2 : world) : Prop :=
  forall q,
    fs_lookup q (files w2) = fs_lookup q final
    \/ fs_lookup q (files w2) = fs_lookup q (files w1).

(** [c] can be repeated: started in a world [w2] that has grown from the
    world its first execution left, it gives the same result and keeps
    catching up. *)
Definition repeatable (final : list (path * node)) {A} (c : M A) : Prop :=
  forall w1 w2,
    grows (world_of (c w1)) w2 ->
    catching_up final w1 w2 ->
    same_result (c w1) (c w2)
    /\ catching_up final (world_of (c w1)) (world_of (c w2)).

End Frame.
Import Frame.

(** ** Further notions and fixtures *)

Module Cases.

(** A truthy value that can neither be split nor iterated: a number other
    than zero, [True], a date. *)
Definition truthy_scalar (v : value) : bool :=
  match v with
  | PInt _ | PBool _ | PDate _ => truthy v
  | _ => false
  end.

(** [d.get(k) or dflt]: the value under [k] when it is truthy. *)
Definition defaulted (k : string) (dflt : value) (d : dict) : value :=
  match dict_get k d with
  | Some v => if truthy v then v else dflt
  | None => dflt
  end.

(** The items of a mapping under other keys than [tags], [title] and
    [date], in their order. *)
Definition other_items (d : dict) : dict :=
  filter (fun e => negb (str_eq "tags" (fst e) || str_eq "title" (fst e)
                         || str_eq "date" (fst e))) d.

(** The keys of a mapping after [d[k] = v]. *)
Definition keys_with (k : string) (keys : list value) : list value :=
  if existsb (str_eq k) keys then keys else (keys ++ [PStr k])%list.

Definition is_hex (c : ascii) : bool :=
  existsb (Ascii.eqb c) (list_ascii_of_string "0123456789abcdef").

(** A character of an attachment name that ends neither the name nor
    the line. *)
Definition name_char (c : ascii) : bool :=
  negb (is_newline c) && negb (Ascii.eqb c "]").

Definition no_bracket (c : ascii) : bool := negb (Ascii.eqb c "[").

Definition no_slash (c : ascii) : bool := negb (Ascii.eqb c "/").

Definition no_close (c : ascii) : bool := negb (Ascii.eqb c "]").

(** More answers of [yaml.safe_load]. *)
Definition pyyaml : string -> value + exn :=
  Fixture.load_table
    [ (nl ++ "tags: [blog, draft]" ++ nl,
       inl (PDict [(PStr "tags", PList [PStr "blog"; PStr "draft"])]));
      (nl ++ "tags: 5" ++ nl, inl (PDict [(PStr "tags", PInt 5)]));
      (nl ++ "tags: [blog" ++ nl, inr YAMLError) ].

Definition number_md : string :=
  Fixture.text ["---"; "tags: 5"; "---"; "body"].

(** [Path.resolve()] on the components of an absolute path, symbolic
    links apart: empty components and [.] are dropped, [..] removes the
    component before it and is dropped at the root.  [acc] is the path
    so far, last component first. *)
Fixpoint resolve_path (acc comps : list string) : path :=
  match comps with
  | [] => List.rev acc
  | c :: rest =>
      if String.eqb c "" || String.eqb c "." then resolve_path acc rest
      else if String.eqb c ".." then resolve_path (tl acc) rest
      else resolve_path (c :: acc) rest
  end.

(** [notes_dir.joinpath(d).resolve()], the resolved [notes_dir] being
    given by its components from the root: an absolute [d] replaces
    [notes_dir]. *)
Definition joinpath_resolve (notes_dir : path) (d : string) : path :=
  if startswith "/" d then resolve_path [] (split "/" d)
  else resolve_path (List.rev notes_dir) (split "/" d).

(** [any(note_path.resolve().is_relative_to(p) for p in abs_exclude_paths)]
    on absolute paths. *)
Definition excluded_abs (notes_dir : path) (exclude_dirs : list string)
    (n : note_file) : bool :=
  existsb (is_relative_to (notes_dir ++ note_path n)%list)
          (map (joinpath_resolve notes_dir) exclude_dirs).

(** An excluded name that stays below the notes directory as it is
    written: relative, and without a [..] component. *)
Definition stays_below (d : string) : bool :=
  negb (startswith "/" d)
  && forallb (fun c => negb (String.eqb c "..")) (split "/" d).




End Cases.
Import Cases.

Unset Implicit Arguments.

(** ** Facts about strings *)

Section StringFacts.

Lemma app_empty_r (s : string) : s ++ "" = s.
Proof. induction s as [|c s IH]; simpl; [reflexivity | now rewrite IH]. Qed.

Lemma app_assoc (a b c : string) : (a ++ b) ++ c = a ++ b ++ c.
Proof. induction a as [|x a IH]; simpl; [reflexivity | now rewrite IH]. Qed.

Lemma length_app (a b : string) :
  String.length (a ++ b) = String.length a + String.length b.
Proof. induction a as [|x a IH]; simpl; [reflexivity | now rewrite IH]. Qed.

Lemma strip_prefix_app (p s : string) : strip_prefix p (p ++ s) = Some s.
Proof.
  induction p as [|a p IH]; simpl; [reflexivity|].
  now rewrite Ascii.eqb_refl.
Qed.

Lemma strip_prefix_sound (p s r : string) :
  strip_prefix p s = Some r -> s = p ++ r.
Proof.
  revert s; induction p as [|a p IH]; simpl; intros s H.
  - now inversion H.
  - destruct s as [|b s]; [discriminate|].
    destruct (Ascii.eqb_spec a b) as [->|]; [|discriminate].
    now rewrite (IH _ H).
Qed.

Lemma newline_is_space (c : ascii) : is_newline c = true -> is_space c = true.
Proof.
  unfold is_newline. intros H. apply Ascii.eqb_eq in H. now subst c.
Qed.

Lemma lstrip_decompose (s : string) :
  exists ws, s = ws ++ lstrip s /\ all_chars is_space ws = true.
Proof.
  induction s as [|c s [ws [E A]]]; simpl.
  - now exists "".
  - destruct (is_space c) eqn:Hc.
    + exists (String c ws); simpl. rewrite Hc, A.
      split; [now rewrite <- E | reflexivity].
    + now exists "".
Qed.

Lemma lstrip_idem (s : string) : lstrip (lstrip s) = lstrip s.
Proof.
  induction s as [|c s IH]; simpl; [reflexivity|].
  destruct (is_space c) eqn:Hc; [exact IH | simpl; now rewrite Hc].
Qed.


Lemma all_chars_app (f : ascii -> bool) (a b : string) :
  all_chars f (a ++ b) = all_chars f a && all_chars f b.
Proof.
  induction a as [|c a IH]; simpl; [reflexivity|].
  now rewrite IH, andb_assoc.
Qed.




(** *** Reversal, on which [rstrip] is built *)







(** *** [strip] is trimming *)



End StringFacts.

(** ** Facts about [FRONT_MATTER_PATTERN] *)

Section FrontMatterFacts.

(** What a successful run of the tail [(.*?)^---\s*] has read. *)
Lemma lazy_to_closing_sound (s : string) :
  forall prev g rest,
    Re.lazy_to_closing prev s = Some (g, rest) ->
    exists ws,
      s = g ++ "---" ++ ws ++ rest
      /\ all_chars is_space ws = true
      /\ lstrip rest = rest
      /\ Re.at_line_start (last_char prev g) = true.
Proof.
  induction s as [|c s IH]; intros prev g rest H.
  - simpl in H. destruct (Re.at_line_start prev); discriminate.
  - cbn [Re.lazy_to_closing] in H.
    destruct (if Re.at_line_start prev
              then strip_prefix "---" (String c s) else None)
      as [r|] eqn:E.
    + injection H as Hg Hr; subst g rest.
      destruct (Re.at_line_start prev) eqn:Hp; [|discriminate].
      apply strip_prefix_sound in E.
      destruct (lstrip_decompose r) as [ws [Er Hws]].
      exists ws. simpl. repeat split; auto.
      * rewrite E. simpl. now rewrite <- Er.
      * apply lstrip_idem.
    + destruct (Re.lazy_to_closing (Some c) s) as [[g' r']|] eqn:E';
        [|discriminate].
      injection H as Hg Hr; subst g rest.
      destruct (IH _ _ _ E') as [ws [Es [Hws [Hr Hl]]]].
      exists ws. repeat split; auto.
      cbn [append]. now f_equal.
Qed.

(** The lazy group stops at the first line start that carries [---]. *)
Lemma lazy_to_closing_first (s : string) :
  forall prev g rest,
    Re.lazy_to_closing prev s = Some (g, rest) ->
    forall g1 t,
      s = g1 ++ t ->
      String.length g1 < String.length g ->
      Re.at_line_start (last_char prev g1) = true ->
      startswith "---" t = false.
Proof.
  induction s as [|c s IH]; intros prev g rest H g1 t Es Hlen Hstart.
  - simpl in H. destruct (Re.at_line_start prev); discriminate.
  - cbn [Re.lazy_to_closing] in H.
    destruct (if Re.at_line_start prev
              then strip_prefix "---" (String c s) else None)
      as [r|] eqn:E.
    + injection H as Hg Hr; subst g rest. simpl in Hlen. lia.
    + destruct (Re.lazy_to_closing (Some c) s) as [[g' r']|] eqn:E';
        [|discriminate].
      injection H as Hg Hr; subst g rest.
      destruct g1 as [|x g1].
      * cbn [append last_char] in Es, Hstart. subst t.
        rewrite Hstart in E. unfold startswith. now rewrite E.
      * cbn [append last_char String.length] in Es, Hstart, Hlen.
        injection Es as Ex Es; subst x.
        apply (IH _ _ _ E' g1 t); auto. lia.
Qed.

Lemma compatible_false (p y tail : string) :
  compatible p y = false -> strip_prefix p (y ++ tail) = None.
Proof.
  revert y; induction p as [|a p IH]; intros y H; [discriminate|].
  destruct y as [|b y]; [discriminate|]. simpl in *.
  destruct (Ascii.eqb a b); [now apply IH | reflexivity].
Qed.

(** The tail of the pattern run on a region without delimiter line that
    is followed by a delimiter at a line start. *)
Lemma lazy_to_closing_complete (y : string) :
  forall prev r,
    delim_free prev y = true ->
    Re.at_line_start (last_char prev y) = true ->
    Re.lazy_to_closing prev (y ++ "---" ++ r) = Some (y, lstrip r).
Proof.
  induction y as [|c y IH]; intros prev r Hfree Hlast.
  - simpl in *. now rewrite Hlast.
  - simpl in Hfree. apply andb_prop in Hfree as [Hhere Hfree].
    change (Re.lazy_to_closing prev (String c (y ++ "---" ++ r))
            = Some (String c y, lstrip r)).
    cbn [Re.lazy_to_closing].
    assert (E : (if Re.at_line_start prev
                 then strip_prefix "---" (String c (y ++ "---" ++ r))
                 else None) = None).
    { destruct (Re.at_line_start prev); [|reflexivity].
      simpl in Hhere. apply negb_true_iff in Hhere.
      apply (compatible_false "---" (String c y) ("---" ++ r) Hhere). }
    rewrite E. rewrite (IH (Some c) r Hfree Hlast). reflexivity.
Qed.

(** What a successful run of [\s*$(.*?)^---\s*] has read. *)
Lemma greedy_ws_eol_sound (s : string) :
  forall prev g rest,
    Re.greedy_ws_eol prev s = Some (g, rest) ->
    exists ws tail,
      s = ws ++ tail
      /\ all_chars is_space ws = true
      /\ Re.at_line_end tail = true
      /\ Re.lazy_to_closing (last_char prev ws) tail = Some (g, rest).
Proof.
  induction s as [|c s IH]; intros prev g rest H.
  - simpl in H. exists "", "". simpl. auto.
  - cbn [Re.greedy_ws_eol] in H.
    assert (Here :
      (if Re.at_line_end (String c s)
       then Re.lazy_to_closing prev (String c s) else None) = Some (g, rest) ->
      exists ws tail,
        String c s = ws ++ tail /\ all_chars is_space ws = true
        /\ Re.at_line_end tail = true
        /\ Re.lazy_to_closing (last_char prev ws) tail = Some (g, rest)).
    { intros Hh. destruct (Re.at_line_end (String c s)) eqn:El; [|discriminate].
      exists "", (String c s). simpl. auto. }
    destruct (is_space c) eqn:Hc; [|now apply Here].
    destruct (Re.greedy_ws_eol (Some c) s) as [[g' r']|] eqn:E;
      [|now apply Here].
    injection H as Hg Hr; subst g' r'.
    destruct (IH _ _ _ E) as [ws [tail [Es [Hws [Hend Hl]]]]].
    exists (String c ws), tail. simpl. rewrite Hc, Hws. repeat split; auto.
    now rewrite Es.
Qed.

End FrontMatterFacts.

(** ** The front-matter parser *)

Section Parser.

Variable yaml_safe_load : string -> value + exn.
Variable yaml_dump : value -> string.

Lemma last_char_some (c : ascii) (g : string) :
  exists d, last_char (Some c) g = Some d.
Proof. revert c; induction g as [|x g IH]; intros c; simpl; eauto. Qed.

Lemma line_start_is_LF (c : ascii) (g : string) :
  Re.at_line_start (last_char (Some c) g) = true ->
  last_char (Some c) g = Some LF.
Proof.
  destruct (last_char_some c g) as [d E]. rewrite E. simpl.
  unfold is_newline. intros H. apply Ascii.eqb_eq in H. now subst d.
Qed.

(** C9, as the code has it: a block is recognised only when the text
    opens with [---] followed by blanks up to the end of its line; the
    closing delimiter is the first [---] standing at the start of a later
    line, whatever follows it on that line, and the region between the two
    is the shortest possible. *)
Theorem front_matter_block_shape (full g rest : string) :
  Re.FRONT_MATTER_PATTERN_match full = Some (g, rest) ->
  block_shape full g rest.
Proof.
  unfold Re.FRONT_MATTER_PATTERN_match. intros H.
  destruct (strip_prefix "---" full) as [r|] eqn:Ep; [|discriminate].
  apply strip_prefix_sound in Ep.
  destruct (greedy_ws_eol_sound _ _ _ _ H) as [ws [tail [Er [Hws [Hend Hl]]]]].
  destruct (lazy_to_closing_sound _ _ _ _ Hl)
    as [ws' [Et [Hws' [Hrest Hstart]]]].
  destruct g as [|c g].
  { exfalso. rewrite Et in Hend. discriminate Hend. }
  assert (Hc : c = LF).
  { rewrite Et in Hend. cbn [append Re.at_line_end] in Hend.
    unfold is_newline in Hend. now apply Ascii.eqb_eq in Hend. }
  subst c. cbn [last_char] in Hstart. apply line_start_is_LF in Hstart.
  exists ws, ws'. repeat split; auto.
  - now rewrite Ep, Er, Et.
  - intros g1 t Eg Hlen Hg1.
    eapply lazy_to_closing_first; [exact Hl | | exact Hlen |].
    + now rewrite Et.
    + destruct g1 as [|x g1]; [discriminate|].
      cbn [last_char] in *. now rewrite Hg1.
Qed.

Lemma front_matter_block_shape_witness :
  block_shape Fixture.trailing_text_md
              (nl ++ "title: x" ++ nl) (Fixture.text ["foo"; "body"]).
Proof.
  apply front_matter_block_shape. vm_compute. reflexivity.
Defined.

(** C9, the claim as worded fails: the only line after the opening that
    begins with [---] is [---foo], and the block is recognised with it as
    closing delimiter; the body starts right after the dashes. *)
Lemma closing_line_with_text_is_accepted :
  split LF Fixture.trailing_text_md = ["---"; "title: x"; "---foo"; "body"]
  /\ Re.FRONT_MATTER_PATTERN_match Fixture.trailing_text_md
     = Some (nl ++ "title: x" ++ nl, "foo" ++ nl ++ "body").
Proof. split; vm_compute; reflexivity. Qed.

Lemma no_dashes_no_front_matter (full : string) :
  startswith "---" full = false -> Re.FRONT_MATTER_PATTERN_match full = None.
Proof.
  unfold startswith, Re.FRONT_MATTER_PATTERN_match.
  destruct (strip_prefix "---" full); [discriminate | reflexivity].
Qed.


(** The header of [index_text] is read back whole. *)
Lemma FRONT_MATTER_PATTERN_match_index_text (y content : string) :
  well_dumped y = true ->
  Re.FRONT_MATTER_PATTERN_match
    ("---" ++ nl ++ y ++ "---" ++ nl ++ nl ++ content)
  = Some (nl ++ y, lstrip content).
Proof.
  unfold well_dumped. intros H.
  apply andb_prop in H as [H Hfree]. apply andb_prop in H as [Hfirst Hlast].
  destruct y as [|c y]; [discriminate|].
  apply negb_true_iff in Hfirst.
  unfold Re.FRONT_MATTER_PATTERN_match. rewrite strip_prefix_app.
  change (nl ++ String c y ++ "---" ++ nl ++ nl ++ content)
    with (String LF (String c (y ++ "---" ++ nl ++ nl ++ content))).
  cbn [Re.greedy_ws_eol].
  replace (is_space LF) with true by reflexivity.
  rewrite Hfirst.
  assert (Hnl : is_newline c = false).
  { destruct (is_newline c) eqn:E; [|reflexivity].
    apply newline_is_space in E. congruence. }
  cbn [Re.at_line_end]. rewrite Hnl.
  replace (is_newline LF) with true by reflexivity.
  change (String LF (String c (y ++ "---" ++ nl ++ nl ++ content)))
    with ((nl ++ String c y) ++ "---" ++ (nl ++ nl ++ content)).
  rewrite lazy_to_closing_complete.
  - f_equal.
  - change (nl ++ String c y) with (String LF (String c y)).
    cbn [delim_free]. cbn [delim_free] in Hfree.
    replace (Re.at_line_start (Some "-"%char)) with false by reflexivity.
    exact Hfree.
  - change (nl ++ String c y) with (String LF (String c y)).
    cbn [last_char] in *.
    destruct (last_char (Some c) y); [exact Hlast | discriminate].
Qed.

(** C4, as the code has it: parsing the text written to [index.md] gives
    back the mapping PyYAML loads from the dumped header, and the body
    that was written with its leading whitespace removed. *)
Theorem index_text_reparse (properties : dict) (content : string)
    (w : world) :
  well_dumped (yaml_dump (PDict properties)) = true ->
  yaml_safe_load (nl ++ yaml_dump (PDict properties))
  = inl (PDict properties) ->
  parse_note_content yaml_safe_load
    (index_text yaml_dump properties content) w
  = Return (PDict properties, lstrip content) w.
Proof.
  intros Hd Hl. unfold parse_note_content, index_text.
  rewrite (FRONT_MATTER_PATTERN_match_index_text _ content Hd).
  unfold try_except, bind. rewrite Hl. unfold ret.
  rewrite lstrip_idem.
  destruct properties; reflexivity.
Qed.

End Parser.

(** ** Mappings *)

Section DictFacts.

Lemma str_eq_true (k : string) (v : value) : str_eq k v = true -> v = PStr k.
Proof.
  destruct v; simpl; try discriminate.
  intros H. apply String.eqb_eq in H. now subst.
Qed.

Lemma dict_get_set_same (k : string) (v : value) (d : dict) :
  dict_get k (dict_set k v d) = Some v.
Proof.
  induction d as [|[k' v'] d IH]; simpl.
  - now rewrite String.eqb_refl.
  - destruct (str_eq k k') eqn:E; simpl; now rewrite E.
Qed.

Lemma dict_get_set_other (k1 k2 : string) (v : value) (d : dict) :
  k1 <> k2 -> dict_get k1 (dict_set k2 v d) = dict_get k1 d.
Proof.
  intros Hne. induction d as [|[k' v'] d IH]; simpl.
  - destruct (String.eqb_spec k2 k1); [congruence | reflexivity].
  - destruct (str_eq k2 k') eqn:E2; simpl.
    + apply str_eq_true in E2. subst k'. simpl.
      destruct (String.eqb_spec k2 k1); [congruence | reflexivity].
    + now rewrite IH.
Qed.

Lemma dict_get_del (k : string) (d : dict) : dict_get k (dict_del k d) = None.
Proof.
  unfold dict_del. induction d as [|[k' v'] d IH]; simpl; [reflexivity|].
  destruct (str_eq k k') eqn:E; simpl; [exact IH | now rewrite E].
Qed.

Lemma dict_has_false (k : string) (d : dict) :
  dict_has k d = false -> dict_get k d = None.
Proof.
  unfold dict_has. induction d as [|[k' v'] d IH]; simpl; [reflexivity|].
  destruct (str_eq k k'); simpl; [discriminate | exact IH].
Qed.

End DictFacts.

(** ** Splitting and trimming *)

Section SplitFacts.






(** *** [split] is splitting on commas *)







End SplitFacts.

(** ** The per-note pipeline *)

Section Pipeline.

Variable yaml_safe_load : string -> value + exn.
Variable yaml_dump : value -> string.
Variable attachment : string -> file_state.
Variable now : nat -> string.
Variable filter_tag : string.
Variable remove_filter_tag : bool.
Variable exclude_dirs : list string.

Local Notation parse := (parse_note_content yaml_safe_load).
Local Notation prepare := (prepare_properties now filter_tag remove_filter_tag).
Local Notation resolve := (resolve_attachments attachment).
Local Notation emit :=
  (emit_note yaml_dump attachment now filter_tag remove_filter_tag).
Local Notation one_note :=
  (process_note yaml_safe_load yaml_dump attachment now filter_tag
                remove_filter_tag exclude_dirs).
Local Notation run :=
  (process_notes yaml_safe_load yaml_dump attachment now filter_tag
                 remove_filter_tag exclude_dirs).






(** C7: once the tag update and the two defaults have run, the mapping to
    be written carries, with the remove option set, the normalized tags
    without any occurrence of the selection tag (which is then no member
    of what is left), and no [tags] key at all when nothing is left; with
    the option unset, the whole normalized sequence.  The output tree is
    not touched by this step. *)
Theorem emitted_tags (stem : string) (tags : list value) (d : dict)
    (w : world) :
  exists d' w',
    prepare stem (PList tags) d w = Return d' w'
    /\ files w' = files w
    /\ dict_get "tags" d'
       = (if remove_filter_tag
          then match Spec.without filter_tag tags with
               | [] => None
               | kept => Some (PList kept)
               end
          else Some (PList tags))
    /\ Spec.selected filter_tag (Spec.without filter_tag tags) = false.
Proof.
  assert (Hgone : Spec.selected filter_tag (Spec.without filter_tag tags)
                  = false).
  { unfold Spec.selected, Spec.without.
    induction tags as [|t l IH]; [reflexivity|]. cbn [filter].
    destruct (str_eq filter_tag t) eqn:E; cbn [negb existsb]; [exact IH|].
    now rewrite E. }
  assert (Hdefaults :
    forall d1 w1, exists d' w',
      (bind (default_title stem d1) (default_date now)) w1 = Return d' w'
      /\ files w' = files w1
      /\ dict_get "tags" d' = dict_get "tags" d1).
  { intros d1 w1. unfold default_title, default_date, bind.
    destruct (get_is_falsy "title" d1);
      cbn [logging ret];
      match goal with
      | |- context [get_is_falsy "date" ?d2] =>
          destruct (get_is_falsy "date" d2)
      end;
      cbn [logging ret now_isoformat];
      eexists; eexists; (split; [reflexivity|]); (split; [reflexivity|]);
      repeat rewrite dict_get_set_other by discriminate; reflexivity. }
  cut (exists d' w',
         prepare stem (PList tags) d w = Return d' w'
         /\ files w' = files w
         /\ dict_get "tags" d'
            = (if remove_filter_tag
               then match Spec.without filter_tag tags with
                    | [] => None
                    | kept => Some (PList kept)
                    end
               else Some (PList tags))).
  { intros [d' [w' [H1 [H2 H3]]]]. exists d', w'. auto. }
  clear Hgone.
  unfold prepare_properties, update_tags.
  destruct remove_filter_tag.
  - unfold Spec.without.
    destruct (filter (fun t => negb (str_eq filter_tag t)) tags)
      as [|t kept] eqn:E.
    + destruct (dict_has "tags" d) eqn:Hhas.
      * destruct (Hdefaults (dict_del "tags" d)
                            (logged DEBUG (RemovingTag filter_tag) w))
          as [d' [w' [Hrun [Hf Hg]]]].
        exists d', w'. repeat split.
        -- unfold bind at 1 2 3. cbn [logging py_iter ret]. rewrite E.
           exact Hrun.
        -- exact Hf.
        -- rewrite Hg. apply dict_get_del.
      * destruct (Hdefaults d (logged DEBUG (RemovingTag filter_tag) w))
          as [d' [w' [Hrun [Hf Hg]]]].
        exists d', w'. repeat split.
        -- unfold bind at 1 2 3. cbn [logging py_iter ret]. rewrite E.
           exact Hrun.
        -- exact Hf.
        -- rewrite Hg. now apply dict_has_false.
    + destruct (Hdefaults (dict_set "tags" (PList (t :: kept)) d)
                          (logged DEBUG (RemovingTag filter_tag) w))
        as [d' [w' [Hrun [Hf Hg]]]].
      exists d', w'. repeat split.
      * unfold bind at 1 2 3. cbn [logging py_iter ret]. rewrite E.
        exact Hrun.
      * exact Hf.
      * rewrite Hg. apply dict_get_set_same.
  - destruct (Hdefaults (dict_set "tags" (PList tags) d) w)
      as [d' [w' [Hrun [Hf Hg]]]].
    exists d', w'. repeat split.
    + unfold bind at 1. unfold ret at 1. exact Hrun.
    + exact Hf.
    + rewrite Hg. apply dict_get_set_same.
Qed.

(** *** Front matter that is not a mapping *)

(** C10, as the code has it: when the region loads to a value that is
    not a mapping, a truthy value (a non-empty scalar or list) is returned
    as the properties and the tag lookup raises [AttributeError]; a falsy
    one (null, [false], [0], the empty string, the empty list) is replaced
    by the empty mapping, and the note is skipped like any note without
    tags. *)
Theorem non_mapping_front_matter (n : note_file) (full g rest : string)
    (v : value) (w : world) :
  excluded exclude_dirs n = false ->
  note_src n = Regular full ->
  Re.FRONT_MATTER_PATTERN_match full = Some (g, rest) ->
  yaml_safe_load g = inl v ->
  (forall d, v <> PDict d) ->
  let w0 := logged INFO (Checking (note_path n)) w in
  if truthy v
  then parse full w0 = Return (v, lstrip rest) w0
       /\ one_note n w = Raise AttributeError w0
  else parse full w0 = Return (PDict [], lstrip rest) w0
       /\ one_note n w
          = Return tt (logged DEBUG (SkipNoTag (note_name n) filter_tag) w0).
Proof.
  intros Hex Hsrc Hm Hl Hv w0.
  assert (Hp : parse full w0
               = Return (if truthy v then v else PDict [], lstrip rest) w0).
  { unfold parse_note_content. rewrite Hm.
    unfold try_except, bind. rewrite Hl. reflexivity. }
  assert (Hrun : one_note n w
                 = bind (get_method (if truthy v then v else PDict []))
                     (fun properties =>
                        bind (py_in filter_tag
                                (normalize_tags
                                   match dict_get "tags" properties with
                                   | Some t => t
                                   | None => PList []
                                   end))
                          (fun found =>
                             if negb found
                             then logging DEBUG
                                    (SkipNoTag (note_name n) filter_tag)
                             else emit n
                                    (normalize_tags
                                       match dict_get "tags" properties with
                                       | Some t => t
                                       | None => PList []
                                       end)
                                    properties (lstrip rest))) w0).
  { unfold process_note. rewrite Hex, Hsrc.
    unfold bind at 1. unfold logging at 1.
    unfold bind at 1. cbn [read_file]. unfold ret at 1.
    unfold bind at 1. fold w0. rewrite Hp. reflexivity. }
  rewrite Hrun, Hp.
  destruct (truthy v) eqn:Ht.
  - split; [reflexivity|].
    destruct v; try reflexivity. exfalso. now apply (Hv d).
  - split; reflexivity.
Qed.

(** *** Attachments *)

Lemma take_drop (n : nat) (s : string) : take n s ++ drop n s = s.
Proof.
  revert s; induction n as [|n IH]; intros [|c s]; simpl; auto.
  now rewrite IH.
Qed.

Lemma drop_length (n : nat) (s : string) :
  String.length (drop n s) = String.length s - n.
Proof.
  revert s; induction n as [|n IH]; intros [|c s]; simpl; auto.
Qed.

(** Feeding the chunks one after the other feeds the whole file. *)
Lemma read_chunks_concat (n : nat) :
  0 < n ->
  forall fuel data acc,
    String.length data < fuel ->
    fold_left (fun h chunk => h ++ chunk) (read_chunks fuel n data) acc
    = acc ++ data.
Proof.
  intros Hn. induction fuel as [|fuel IH]; intros data acc Hlen; [lia|].
  destruct data as [|c t].
  - simpl. now rewrite app_empty_r.
  - cbn [read_chunks fold_left].
    rewrite IH.
    + now rewrite app_assoc, take_drop.
    + rewrite drop_length. cbn [String.length] in *. lia.
Qed.

Lemma chunk_positive : 0 < CHUNK.
Proof. unfold CHUNK. apply Nat.lt_0_succ. Qed.

Lemma calculate_md5_regular (file_path data : string) (w : world) :
  calculate_md5 file_path (Regular data) w
  = Return (Some (MD5.hexdigest data)) w.
Proof.
  unfold calculate_md5, try_except, bind. cbn [read_file]. unfold ret.
  rewrite (read_chunks_concat CHUNK chunk_positive) by lia.
  reflexivity.
Qed.

Lemma hexdigest_nonempty (data : string) :
  String.eqb (MD5.hexdigest data) "" = false.
Proof.
  unfold MD5.hexdigest.
  destruct (fold_left MD5.compress _ MD5.init) as [[[a b] c] d].
  reflexivity.
Qed.

Lemma path_eqb_refl (p : path) : path_eqb p p = true.
Proof. unfold path_eqb. destruct (list_eq_dec string_dec p p); congruence. Qed.

Lemma fs_lookup_put (p : path) (n : node) (fs : list (path * node)) :
  fs_lookup p (fs_put p n fs) = Some n.
Proof.
  induction fs as [|[q m] fs IH]; simpl.
  - now rewrite path_eqb_refl.
  - destruct (path_eqb p q) eqn:E; simpl; now rewrite E.
Qed.

(** One turn of the attachment loop on a readable file. *)
Lemma resolve_regular (bundle tok name data : string)
    (rest repl : list (string * string)) (w : world) :
  attachment name = Regular data ->
  resolve bundle ((tok, name) :: rest) repl w
  = bind (copy2 name (Regular data)
                [bundle; new_filename (MD5.hexdigest data) name])
      (fun _ =>
         resolve bundle rest
           (List.app repl
              [(tok, "![](" ++ new_filename (MD5.hexdigest data) name ++ ")")]))
      (logged DEBUG
         (Copying name (new_filename (MD5.hexdigest data) name)) w).
Proof.
  intros Ha. cbn [resolve_attachments]. rewrite Ha.
  unfold bind at 1. rewrite calculate_md5_regular.
  rewrite hexdigest_nonempty. reflexivity.
Qed.

Lemma copy2_plain (name data : string) (dst : path) (w : world) :
  fs_lookup dst (files w) <> Some Dir ->
  copy2 name (Regular data) dst w
  = Return tt (set_files (fs_put dst (File data) (files w)) w).
Proof.
  intros H. unfold copy2, bind. cbn [read_file]. unfold ret, write_file.
  destruct (fs_lookup dst (files w)) as [[|d]|]; try reflexivity.
  now exfalso.
Qed.

(** C8, as the code has it: two embed tokens whose files have the same
    bytes and the same extension are both rewritten to the one target
    name, the hex digest of the bytes followed by that extension, and the
    bundle holds the bytes under that name after the two copies. *)
Theorem same_content_same_target (bundle tok1 name1 tok2 name2 data : string)
    (w : world) :
  attachment name1 = Regular data ->
  attachment name2 = Regular data ->
  PurePath.suffix name1 = PurePath.suffix name2 ->
  fs_lookup [bundle; MD5.hexdigest data ++ PurePath.suffix name1] (files w)
  <> Some Dir ->
  exists w',
    resolve bundle [(tok1, name1); (tok2, name2)] [] w
    = Return
        [ (tok1,
           "![](" ++ (MD5.hexdigest data ++ PurePath.suffix name1) ++ ")");
          (tok2,
           "![](" ++ (MD5.hexdigest data ++ PurePath.suffix name1) ++ ")") ]
        w'
    /\ fs_lookup [bundle; MD5.hexdigest data ++ PurePath.suffix name1]
                 (files w')
       = Some (File data).
Proof.
  intros H1 H2 Hs Hdst.
  rewrite (resolve_regular _ _ _ _ _ _ _ H1).
  unfold new_filename. unfold bind at 1.
  rewrite copy2_plain by exact Hdst.
  rewrite (resolve_regular _ _ _ _ _ _ _ H2).
  unfold new_filename. rewrite <- Hs. unfold bind at 1.
  rewrite copy2_plain.
  - eexists. split; [reflexivity|]. cbn [files set_files logged].
    apply fs_lookup_put.
  - cbn [files set_files logged]. rewrite fs_lookup_put. discriminate.
Qed.

(** C3, as the code has it: when opening an existing attachment fails
    with [FileNotFoundError], one warning is logged, no replacement is
    recorded for the token and the loop goes on with the next token; any
    other failure of the read leaves [calculate_md5] as an exception and
    ends the loop there. *)
Theorem unreadable_attachment (bundle tok name : string)
    (rest repl : list (string * string)) (e : exn) (w : world) :
  attachment name = Unreadable e ->
  resolve bundle ((tok, name) :: rest) repl w
  = match e with
    | FileNotFoundError =>
        resolve bundle rest repl (logged WARNING (HashFileNotFound name) w)
    | _ => Raise e w
    end.
Proof.
  intros Ha. cbn [resolve_attachments]. rewrite Ha.
  unfold bind, calculate_md5, try_except. cbn [read_file].
  destruct e; reflexivity.
Qed.

(** *** The loop over the notes *)

Lemma for_each_app {A} (body : A -> M unit) (a b : list A) (w : world) :
  for_each (a ++ b)%list body w
  = match for_each a body w with
    | Return _ w' => for_each b body w'
    | Raise e w' => Raise e w'
    end.
Proof.
  revert w; induction a as [|x a IH]; intros w; [reflexivity|].
  cbn [List.app for_each]. unfold bind.
  destruct (body x w) as [[] w'|e w']; [apply IH | reflexivity].
Qed.

(** C2, as the code has it: the loop has no handler of its own.  When a
    note raises, the run ends with that exception in the world reached at
    that point, whatever notes were still to come; when a note returns,
    the loop goes on with the notes that follow. *)
Theorem failure_ends_the_run (pre post : list note_file) (n : note_file)
    (w w0 w1 : world) :
  prologue exclude_dirs w = Return tt w0 ->
  for_each pre one_note w0 = Return tt w1 ->
  (forall e w2,
      one_note n w1 = Raise e w2 ->
      run (pre ++ n :: post)%list w = Raise e w2)
  /\ (forall w2,
        one_note n w1 = Return tt w2 ->
        for_each (pre ++ n :: post)%list one_note w0
        = for_each post one_note w2).
Proof.
  intros Hpro Hpre. split.
  - intros e w2 Hn. unfold process_notes.
    unfold bind at 1. rewrite Hpro.
    unfold bind at 1. rewrite for_each_app, Hpre.
    cbn [for_each]. unfold bind at 1. rewrite Hn. reflexivity.
  - intros w2 Hn. rewrite for_each_app, Hpre.
    cbn [for_each]. unfold bind at 1. rewrite Hn. reflexivity.
Qed.

(** *** Wiki-links *)

Lemma sub_wikilink_skip (s : string) :
  forall k p2 p1,
    String.length s <= k -> Re.sub_wikilink_pattern_from k p2 p1 s = "".
Proof.
  induction s as [|c s IH]; intros k p2 p1 H; [reflexivity|].
  destruct k as [|k]; simpl in H; [lia|].
  cbn [Re.sub_wikilink_pattern_from]. apply IH. lia.
Qed.

Lemma sub_wikilink_step (c : ascii) (s : string) (p2 p1 : option ascii) :
  Re.sub_wikilink_pattern_from 0 p2 p1 (String c s)
  = match Re.match_wikilink_pattern p2 p1 (String c s) with
    | Some (g, _) =>
        g ++ Re.sub_wikilink_pattern_from (String.length g + 3) p1 (Some c) s
    | None => String c (Re.sub_wikilink_pattern_from 0 p1 (Some c) s)
    end.
Proof. reflexivity. Qed.

(** The wiki-link substitution takes the brackets off an embed token and
    leaves its exclamation mark. *)
Lemma embed_token_is_stripped (name : string) :
  Re.lazy_until_close (name ++ "]]") = Some (name, "") ->
  Re.sub_wikilink_pattern ("![[" ++ name ++ "]]") = "!" ++ name.
Proof.
  intros H. unfold Re.sub_wikilink_pattern.
  change ("![[" ++ name ++ "]]")
    with (String "!" (String "[" (String "[" (name ++ "]]")))).
  rewrite sub_wikilink_step.
  replace (Re.match_wikilink_pattern None None
             (String "!" (String "[" (String "[" (name ++ "]]")))))
    with (@None (string * string)) by reflexivity.
  rewrite sub_wikilink_step.
  replace (Re.match_wikilink_pattern None (Some "!"%char)
             (String "[" (String "[" (name ++ "]]"))))
    with (Some (name, "")) by (symmetry; exact H).
  rewrite sub_wikilink_skip.
  - cbn [append]. now rewrite app_empty_r.
  - cbn [String.length]. rewrite length_app. simpl. lia.
Qed.

End Pipeline.

(** ** The script on concrete vaults *)

Section Examples.

Import Fixture.

(** The scenario of the specification: [Foo.md] tagged [blog, draft],
    embedding [diagram.png]. *)
Example scenario_foo :
  written (convert "blog" false [note "Foo.md" foo_md]) ["Foo"; "index.md"]
  = Some (File (text
      [ "---"; "tags:"; "- blog"; "- draft"; "title: Foo";
        "date: '" ++ stamp ++ "'"; "---"; "";
        "See ![](" ++ MD5.hexdigest "PNG" ++ ".png)" ]))
  /\ written (convert "blog" false [note "Foo.md" foo_md])
             ["Foo"; MD5.hexdigest "PNG" ++ ".png"]
     = Some (File "PNG").
Proof. split; vm_compute; reflexivity. Qed.

(** C1, the code against its own comment: the note [Missing.md] embeds
    an attachment that does not exist.  The token is left alone by the
    attachment loop, and the wiki-link step then removes its brackets:
    the body written is [See !missing.png], not [See ![[missing.png]]]. *)
Theorem unresolved_embed_loses_its_brackets :
  Re.finditer_attachment_pattern "See ![[missing.png]]"
  = [("![[missing.png]]", "missing.png")]
  /\ attachments "missing.png" = Absent
  /\ Re.sub_wikilink_pattern "See ![[missing.png]]" = "See !missing.png"
  /\ written (convert "blog" false [note "Missing.md" missing_md])
             ["Missing"; "index.md"]
     = Some (File (text
         [ "---"; "tags:"; "- blog"; "title: Missing";
           "date: '" ++ stamp ++ "'"; "---"; "";
           "See !missing.png" ])).
Proof. repeat split; vm_compute; reflexivity. Qed.

(** Nested brackets leave a wiki-link in the output. *)
Example nested_wikilink_survives :
  Re.sub_wikilink_pattern "[[[[c]]]]" = "[[c]]".
Proof. vm_compute. reflexivity. Qed.

(** C2, the claim as worded fails: the first note cannot be read; the
    run ends with [PermissionError] and the second note, which carries the
    tag and is emitted when it is alone, gets no bundle. *)
Lemma unreadable_note_stops_the_run :
  raised (convert "blog" false [locked_note; note "Foo.md" foo_md])
  = Some PermissionError
  /\ written (convert "blog" false [locked_note; note "Foo.md" foo_md])
             ["Foo"; "index.md"] = None
  /\ written (convert "blog" false [note "Foo.md" foo_md]) ["Foo"]
     = Some Dir.
Proof. repeat split; vm_compute; reflexivity. Qed.

Lemma failure_ends_the_run_witness :
  exists w2,
    process_notes pyyaml dump_block attachments clock "blog" false []
                  ([] ++ locked_note :: [note "Foo.md" foo_md])%list
                  empty_world
    = Raise PermissionError w2.
Proof.
  eexists.
  eapply (proj1 (failure_ends_the_run pyyaml dump_block attachments clock
                   "blog" false [] [] [note "Foo.md" foo_md] locked_note
                   empty_world _ _ eq_refl eq_refl)).
  reflexivity.
Defined.

(** C3, the claim as worded fails: [secret.png] exists and cannot be
    read; [calculate_md5] raises, the run ends with [PermissionError] and
    nothing is written for the note. *)
Lemma permission_error_ends_the_run :
  attachments "secret.png" = Unreadable PermissionError
  /\ raised (convert "blog" false
               [note "Secret.md" secret_md; note "Foo.md" foo_md])
     = Some PermissionError
  /\ written (convert "blog" false
                [note "Secret.md" secret_md; note "Foo.md" foo_md])
             ["Secret"; "index.md"] = None.
Proof. repeat split; vm_compute; reflexivity. Qed.

Lemma unreadable_attachment_witness :
  resolve_attachments attachments "Bundle"
    [("![[gone.png]]", "gone.png")] [] empty_world
  = Return [] (logged WARNING (HashFileNotFound "gone.png") empty_world).
Proof.
  exact (unreadable_attachment attachments "Bundle" "![[gone.png]]"
           "gone.png" [] [] FileNotFoundError empty_world eq_refl).
Defined.

(** C4, the claim as worded fails: the body of [Link.md] starts with a
    wiki-link whose text starts with a blank; the body written starts with
    that blank and the body parsed back does not. *)
Lemma reparsed_body_differs :
  written (convert "blog" false [note "Link.md" link_md])
          ["Link"; "index.md"]
  = Some (File (index_text dump_block link_properties
                           " Home is where it starts"))
  /\ parse_note_content pyyaml
       (index_text dump_block link_properties " Home is where it starts")
       empty_world
     = Return (PDict link_properties, "Home is where it starts") empty_world
  /\ "Home is where it starts" <> " Home is where it starts".
Proof. repeat split; try (vm_compute; reflexivity). discriminate. Qed.

Lemma index_text_reparse_witness :
  parse_note_content pyyaml
    (index_text dump_block link_properties " Home is where it starts")
    empty_world
  = Return (PDict link_properties, lstrip " Home is where it starts")
           empty_world.
Proof.
  apply (index_text_reparse pyyaml dump_block link_properties
           " Home is where it starts" empty_world); reflexivity.
Defined.



Lemma plain_blog : Spec.plain_tag "blog".
Proof. split; reflexivity. Defined.

Lemma plain_draft : Spec.plain_tag "draft".
Proof. split; reflexivity. Defined.



(** The second scenario of the specification: the remove option set. *)
Example scenario_remove_tag :
  written (convert "blog" true [note "Foo.md" foo_md]) ["Foo"; "index.md"]
  = Some (File (text
      [ "---"; "tags:"; "- draft"; "title: Foo";
        "date: '" ++ stamp ++ "'"; "---"; "";
        "See ![](" ++ MD5.hexdigest "PNG" ++ ".png)" ]))
  /\ written (convert "blog" true [note "Missing.md" missing_md])
             ["Missing"; "index.md"]
     = Some (File (text
         [ "---"; "title: Missing"; "date: '" ++ stamp ++ "'"; "---"; "";
           "See !missing.png" ])).
Proof. split; vm_compute; reflexivity. Qed.

(** C8, the claim as worded fails: [copy.png] and [copy.jpg] hold the
    same bytes, and the two tokens get two target names. *)
Lemma same_bytes_other_extension :
  attachments "copy.png" = attachments "copy.jpg"
  /\ exists h w',
       resolve_attachments attachments "Twins"
         (Re.finditer_attachment_pattern "![[copy.png]] ![[copy.jpg]]") []
         empty_world
       = Return [ ("![[copy.png]]", "![](" ++ h ++ ".png)");
                  ("![[copy.jpg]]", "![](" ++ h ++ ".jpg)") ] w'
       /\ h ++ ".png" <> h ++ ".jpg".
Proof.
  split; [reflexivity|].
  exists (MD5.hexdigest "same bytes"). eexists.
  split; [vm_compute; reflexivity|].
  vm_compute. discriminate.
Qed.

Lemma same_content_same_target_witness :
  exists w',
    resolve_attachments attachments "Twins"
      [("![[copy.png]]", "copy.png"); ("![[mirror.png]]", "mirror.png")]
      [] empty_world
    = Return
        [ ("![[copy.png]]",
           "![](" ++ (MD5.hexdigest "same bytes" ++ PurePath.suffix "copy.png")
                  ++ ")");
          ("![[mirror.png]]",
           "![](" ++ (MD5.hexdigest "same bytes" ++ PurePath.suffix "copy.png")
                  ++ ")") ]
        w'
    /\ fs_lookup
         ["Twins"; MD5.hexdigest "same bytes" ++ PurePath.suffix "copy.png"]
         (files w')
       = Some (File "same bytes").
Proof.
  apply (same_content_same_target attachments "Twins"
           "![[copy.png]]" "copy.png" "![[mirror.png]]" "mirror.png"
           "same bytes" empty_world eq_refl eq_refl eq_refl).
  discriminate.
Defined.

(** C10, the claim as worded fails: the front matter [[]] is valid
    YAML and not a mapping; the parser returns the empty mapping instead
    and the note is skipped, nothing is raised. *)
Lemma empty_list_front_matter_is_skipped :
  Re.FRONT_MATTER_PATTERN_match empty_list_md = Some (nl ++ "[]" ++ nl, "body")
  /\ pyyaml (nl ++ "[]" ++ nl) = inl (PList [])
  /\ parse_note_content pyyaml empty_list_md empty_world
     = Return (PDict [], "body") empty_world
  /\ raised (convert "blog" false [note "E.md" empty_list_md]) = None
  /\ written (convert "blog" false [note "E.md" empty_list_md]) ["E"] = None.
Proof. repeat split; vm_compute; reflexivity. Qed.

Lemma non_mapping_front_matter_witness :
  parse_note_content pyyaml items_md
    (logged INFO (Checking ["Items.md"]) empty_world)
  = Return (PList [PStr "a"; PStr "b"], "body")
           (logged INFO (Checking ["Items.md"]) empty_world)
  /\ process_note pyyaml dump_block attachments clock "blog" false []
                  (note "Items.md" items_md) empty_world
     = Raise AttributeError (logged INFO (Checking ["Items.md"]) empty_world).
Proof.
  apply (non_mapping_front_matter pyyaml dump_block attachments clock
           "blog" false [] (note "Items.md" items_md) items_md
           (nl ++ text ["- a"; "- b"; ""]) "body"
           (PList [PStr "a"; PStr "b"]) empty_world
           eq_refl eq_refl eq_refl eq_refl).
  intros d. discriminate.
Defined.

End Examples.

(** ** The structure of the script, once for every property of its
    computations *)

Section Structure.

(** A property [P] of computations that the primitive operations have
    (on the paths [ok] allows) and that sequencing and handlers keep. *)
Variable P : forall A : Type, M A -> Prop.
Variable ok : path -> bool.
Variable now : nat -> string.

Hypothesis P_ret : forall A (a : A), P A (ret a).
Hypothesis P_raise : forall A (e : exn), P A (raise e).
Hypothesis P_bind :
  forall A B (c : M A) (k : A -> M B),
    P A c -> (forall a, P B (k a)) -> P B (bind c k).
Hypothesis P_try :
  forall A (c : M A) (h : exn -> option (M A)),
    P A c -> (forall e handler, h e = Some handler -> P A handler) ->
    P A (try_except c h).
Hypothesis P_logging : forall l m, P unit (logging l m).
Hypothesis P_now : P string (now_isoformat now).
Hypothesis P_mkdir :
  forall p, ok p = true -> P unit (mkdir_exist_ok p).
Hypothesis P_write :
  forall p d, ok p = true -> P unit (write_file p d).
Hypothesis P_copy2 :
  forall name src dst,
    ok dst = true -> ok (dst ++ [PurePath.name name])%list = true ->
    P unit (copy2 name src dst).

Variable yaml_safe_load : string -> value + exn.
Variable yaml_dump : value -> string.
Variable attachment : string -> file_state.
Variable filter_tag : string.
Variable remove_filter_tag : bool.
Variable exclude_dirs : list string.

Lemma P_read (f : file_state) : P string (read_file f).
Proof. destruct f; simpl; auto. Qed.

Lemma P_for_each {A} (body : A -> M unit) (l : list A) :
  (forall x, In x l -> P unit (body x)) -> P unit (for_each l body).
Proof.
  induction l as [|x l IH]; intros H; cbn [for_each]; [apply P_ret|].
  apply P_bind; [apply H; now left|].
  intros _. apply IH. intros y Hy. apply H. now right.
Qed.

Ltac structure :=
  repeat first
    [ assumption
    | apply P_ret
    | apply P_raise
    | apply P_logging
    | apply P_now
    | apply P_read
    | apply P_bind; [|intros ?]
    | match goal with
      | |- P _ (if ?b then _ else _) => destruct b
      | |- P _ (match ?x with _ => _ end) => destruct x
      end ].

Lemma P_calculate_md5 (file_path : string) (f : file_state) :
  P _ (calculate_md5 file_path f).
Proof.
  unfold calculate_md5. apply P_try.
  - structure.
  - intros e handler H. destruct e; inversion H; subst. structure.
Qed.

Lemma P_parse (full : string) :
  P _ (parse_note_content yaml_safe_load full).
Proof.
  unfold parse_note_content.
  destruct (Re.FRONT_MATTER_PATTERN_match full) as [[g rest]|];
    [|structure].
  apply P_try.
  - structure.
  - intros e handler H. destruct e; inversion H; subst. structure.
Qed.

Lemma P_py_in (t : string) (v : value) : P _ (py_in t v).
Proof. unfold py_in, py_iter. structure. Qed.

Lemma P_prepare (stem : string) (tags_list : value) (d : dict) :
  P _ (prepare_properties now filter_tag remove_filter_tag stem tags_list d).
Proof.
  unfold prepare_properties, update_tags, default_title, default_date,
    py_iter.
  structure.
Qed.

Lemma below_tail (base : path) (x : string) (tail : path) :
  is_relative_to (base ++ x :: tail)%list base = true.
Proof.
  induction base as [|b base IH]; simpl; [reflexivity|].
  now rewrite String.eqb_refl.
Qed.

Lemma P_resolve (bundle : string) (matches repl : list (string * string)) :
  (forall q, is_relative_to q [bundle] = true -> ok q = true) ->
  P _ (resolve_attachments attachment bundle matches repl).
Proof.
  intros Hok. revert repl.
  induction matches as [|[tok name] rest IH]; intros repl;
    cbn [resolve_attachments]; [apply P_ret|].
  assert (Hgo : forall source,
    P _
      (bind (calculate_md5 name source)
         (fun md5_hash =>
            match md5_hash with
            | Some h =>
                if String.eqb h "" then
                  resolve_attachments attachment bundle rest repl
                else
                  bind (logging DEBUG (Copying name (new_filename h name)))
                    (fun _ =>
                       bind (copy2 name source
                                   [bundle; new_filename h name])
                         (fun _ =>
                            resolve_attachments attachment bundle rest
                              (List.app repl
                                 [(tok,
                                   "![](" ++ new_filename h name ++ ")")])))
            | None => resolve_attachments attachment bundle rest repl
            end))).
  { intros source. apply P_bind; [apply P_calculate_md5|].
    intros [h|]; [|apply IH].
    destruct (String.eqb h ""); [apply IH|].
    apply P_bind; [apply P_logging|]. intros _.
    apply P_bind; [|intros _; apply IH].
    apply P_copy2; apply Hok.
    - apply (below_tail [bundle] (new_filename h name) []).
    - apply (below_tail [bundle] (new_filename h name)
                        [PurePath.name name]). }
  destruct (attachment name) as [|data|e].
  - apply P_bind; [apply P_logging | intros _; apply IH].
  - apply Hgo.
  - apply Hgo.
Qed.

Lemma P_rewrite (stem content : string) :
  (forall q, is_relative_to q [stem] = true -> ok q = true) ->
  P _ (rewrite_content attachment stem content).
Proof.
  intros Hok. unfold rewrite_content, apply_replacements, strip_wikilinks.
  apply P_bind; [now apply P_resolve|]. intros repl. structure.
Qed.

Lemma P_emit (n : note_file) (tags_list : value) (d : dict)
    (content : string) :
  (forall q, is_relative_to q (bundle_of n) = true -> ok q = true) ->
  P _ (emit_note yaml_dump attachment now filter_tag remove_filter_tag
                 n tags_list d content).
Proof.
  intros Hok. unfold emit_note.
  apply P_bind; [apply P_logging|]. intros _.
  apply P_bind; [apply P_prepare|]. intros d'.
  apply P_bind.
  { apply P_mkdir, Hok. unfold bundle_of. simpl.
    now rewrite String.eqb_refl. }
  intros _. apply P_bind; [apply P_logging|]. intros _.
  apply P_bind; [now apply P_rewrite|]. intros c.
  apply P_bind; [|intros _; apply P_logging].
  apply P_write, Hok.
  apply (below_tail (bundle_of n) "index.md" []).
Qed.

Lemma P_process_note (n : note_file) :
  (forall q, is_relative_to q (bundle_of n) = true -> ok q = true) ->
  P _ (process_note yaml_safe_load yaml_dump attachment now filter_tag
                    remove_filter_tag exclude_dirs n).
Proof.
  intros Hok. unfold process_note, get_method.
  destruct (excluded exclude_dirs n); [apply P_logging|].
  apply P_bind; [apply P_logging|]. intros _.
  apply P_bind; [apply P_read|]. intros full.
  apply P_bind; [apply P_parse|]. intros [props content].
  apply P_bind; [cbn [fst]; structure|]. intros d.
  apply P_bind; [apply P_py_in|]. intros found.
  destruct (negb found); [apply P_logging|].
  now apply P_emit.
Qed.

Lemma P_process_notes (notes : list note_file) :
  ok [] = true ->
  (forall n q, In n notes -> is_relative_to q (bundle_of n) = true ->
               ok q = true) ->
  P _ (process_notes yaml_safe_load yaml_dump attachment now filter_tag
                     remove_filter_tag exclude_dirs notes).
Proof.
  intros Hroot Hok. unfold process_notes, prologue, when.
  apply P_bind.
  { apply P_bind; [now apply P_mkdir|]. intros _. structure. }
  intros _. apply P_bind; [|intros _; apply P_logging].
  apply P_for_each. intros n Hn.
  apply P_process_note. intros q. now apply Hok.
Qed.

End Structure.

(** ** Relations that every step keeps *)

Section Preservation.

Variable R : world -> world -> Prop.
Variable ok : path -> bool.

Hypothesis R_refl : forall w, R w w.
Hypothesis R_trans : forall a b c, R a b -> R b c -> R a c.
Hypothesis R_log : forall l m w, R w (logged l m w).
Hypothesis R_tick :
  forall w, R w (mkWorld (files w) (log w) (S (clock w))).
Hypothesis R_mkdir :
  forall p w, ok p = true -> fs_lookup p (files w) = None ->
              R w (set_files (fs_put p Dir (files w)) w).
Hypothesis R_write :
  forall p d w, ok p = true -> fs_lookup p (files w) <> Some Dir ->
                R w (set_files (fs_put p (File d) (files w)) w).

Lemma preserves_ret A (a : A) : preserves R (ret a).
Proof. intros w. apply R_refl. Qed.

Lemma preserves_raise A (e : exn) : preserves R (@raise A e).
Proof. intros w. apply R_refl. Qed.

Lemma preserves_bind A B (c : M A) (k : A -> M B) :
  preserves R c -> (forall a, preserves R (k a)) -> preserves R (bind c k).
Proof.
  intros Hc Hk w. unfold bind. specialize (Hc w).
  destruct (c w) as [a w'|e w']; simpl in *; [|exact Hc].
  eapply R_trans; [exact Hc | apply Hk].
Qed.

Lemma preserves_try A (c : M A) (h : exn -> option (M A)) :
  preserves R c ->
  (forall e handler, h e = Some handler -> preserves R handler) ->
  preserves R (try_except c h).
Proof.
  intros Hc Hh w. unfold try_except. specialize (Hc w).
  destruct (c w) as [a w'|e w']; simpl in *; [exact Hc|].
  destruct (h e) as [handler|] eqn:E; simpl; [|exact Hc].
  eapply R_trans; [exact Hc | apply (Hh e handler E)].
Qed.

Lemma preserves_logging (l : level) (m : message) :
  preserves R (logging l m).
Proof. intros w. apply R_log. Qed.

Lemma preserves_now (now : nat -> string) : preserves R (now_isoformat now).
Proof. intros w. apply R_tick. Qed.

Lemma preserves_mkdir (p : path) :
  ok p = true -> preserves R (mkdir_exist_ok p).
Proof.
  intros Hp w. unfold mkdir_exist_ok.
  destruct (fs_lookup p (files w)) as [[|d]|] eqn:E; simpl;
    auto using R_refl.
Qed.

Lemma preserves_write (p : path) (data : string) :
  ok p = true -> preserves R (write_file p data).
Proof.
  intros Hp w. unfold write_file.
  destruct (fs_lookup p (files w)) as [[|d]|] eqn:E; simpl;
    try apply R_refl; apply R_write; auto; rewrite E; discriminate.
Qed.

Lemma preserves_copy2 (name : string) (src : file_state) (dst : path) :
  ok dst = true -> ok (dst ++ [PurePath.name name])%list = true ->
  preserves R (copy2 name src dst).
Proof.
  intros Hd Hn. unfold copy2. apply preserves_bind.
  - destruct src; intros w; apply R_refl.
  - intros data w.
    destruct (fs_lookup dst (files w)) as [[|d]|];
      now apply preserves_write.
Qed.

Variable yaml_safe_load : string -> value + exn.
Variable yaml_dump : value -> string.
Variable attachment : string -> file_state.
Variable now : nat -> string.
Variable filter_tag : string.
Variable remove_filter_tag : bool.
Variable exclude_dirs : list string.


Lemma preserves_process_note (n : note_file) :
  (forall q, is_relative_to q (bundle_of n) = true -> ok q = true) ->
  preserves R
    (process_note yaml_safe_load yaml_dump attachment now filter_tag
                  remove_filter_tag exclude_dirs n).
Proof.
  apply (P_process_note (fun A => @preserves R A) ok now);
    auto using preserves_ret, preserves_raise, preserves_bind,
      preserves_try, preserves_logging, preserves_now, preserves_mkdir,
      preserves_write, preserves_copy2.
Qed.

Lemma preserves_process_notes (notes : list note_file) :
  ok [] = true ->
  (forall n q, In n notes -> is_relative_to q (bundle_of n) = true ->
               ok q = true) ->
  preserves R
    (process_notes yaml_safe_load yaml_dump attachment now filter_tag
                   remove_filter_tag exclude_dirs notes).
Proof.
  apply (P_process_notes (fun A => @preserves R A) ok now);
    auto using preserves_ret, preserves_raise, preserves_bind,
      preserves_try, preserves_logging, preserves_now, preserves_mkdir,
      preserves_write, preserves_copy2.
Qed.

End Preservation.

(** ** The output tree *)

Section OutputTree.

Lemma path_eqb_eq (p q : path) : path_eqb p q = true <-> p = q.
Proof.
  unfold path_eqb. destruct (list_eq_dec string_dec p q); split;
    congruence.
Qed.

Lemma fs_lookup_put_other (p q : path) (n : node)
    (fs : list (path * node)) :
  q <> p -> fs_lookup q (fs_put p n fs) = fs_lookup q fs.
Proof.
  intros Hne. induction fs as [|[r m] fs IH]; simpl.
  - destruct (path_eqb q p) eqn:E; [|reflexivity].
    apply path_eqb_eq in E. contradiction.
  - destruct (path_eqb p r) eqn:Epr; simpl.
    + apply path_eqb_eq in Epr. subst r.
      destruct (path_eqb q p) eqn:E; [|reflexivity].
      apply path_eqb_eq in E. contradiction.
    + destruct (path_eqb q r); [reflexivity | exact IH].
Qed.

Lemma fs_lookup_put_cases (p q : path) (n : node)
    (fs : list (path * node)) :
  fs_lookup q (fs_put p n fs)
  = if path_eqb q p then Some n else fs_lookup q fs.
Proof.
  destruct (path_eqb q p) eqn:E.
  - apply path_eqb_eq in E. subst q. apply fs_lookup_put.
  - apply fs_lookup_put_other. intros ->. now rewrite path_eqb_refl in E.
Qed.

Lemma grows_refl (w : world) : grows w w.
Proof.
  repeat split; eauto.
  exists []. now rewrite List.app_nil_r.
Qed.

Lemma grows_trans (a b c : world) : grows a b -> grows b c -> grows a c.
Proof.
  intros [[m1 L1] [D1 [F1 C1]]] [[m2 L2] [D2 [F2 C2]]]. repeat split.
  - exists (m1 ++ m2)%list. now rewrite L2, L1, List.app_assoc.
  - auto.
  - intros p d H. destruct (F1 p d H) as [d' H']. eauto.
  - lia.
Qed.

Lemma grows_log (l : level) (m : message) (w : world) :
  grows w (logged l m w).
Proof. repeat split; simpl; eauto. Qed.

Lemma grows_tick (w : world) :
  grows w (mkWorld (files w) (log w) (S (clock w))).
Proof.
  repeat split; simpl; eauto.
  exists []. now rewrite List.app_nil_r.
Qed.

Lemma grows_mkdir (p : path) (w : world) :
  fs_lookup p (files w) = None ->
  grows w (set_files (fs_put p Dir (files w)) w).
Proof.
  intros Hp. repeat split; simpl.
  - exists []. now rewrite List.app_nil_r.
  - intros q Hq. rewrite fs_lookup_put_other; [exact Hq | congruence].
  - intros q d Hq. exists d.
    rewrite fs_lookup_put_other; [exact Hq | congruence].
  - lia.
Qed.

Lemma grows_write (p : path) (d : string) (w : world) :
  fs_lookup p (files w) <> Some Dir ->
  grows w (set_files (fs_put p (File d) (files w)) w).
Proof.
  intros Hp. repeat split; simpl.
  - exists []. now rewrite List.app_nil_r.
  - intros q Hq. rewrite fs_lookup_put_other; [exact Hq | congruence].
  - intros q d0 Hq. rewrite fs_lookup_put_cases.
    destruct (path_eqb q p); eauto.
  - lia.
Qed.

Lemma same_outside_refl (ok : path -> bool) (w : world) :
  same_outside ok w w.
Proof. intros q _. reflexivity. Qed.

Lemma same_outside_trans (ok : path -> bool) (a b c : world) :
  same_outside ok a b -> same_outside ok b c -> same_outside ok a c.
Proof. intros H1 H2 q Hq. now rewrite (H2 q Hq), (H1 q Hq). Qed.

Lemma same_outside_put (ok : path -> bool) (p : path) (n : node)
    (w : world) :
  ok p = true -> same_outside ok w (set_files (fs_put p n (files w)) w).
Proof.
  intros Hp q Hq. simpl. apply fs_lookup_put_other. congruence.
Qed.

Variable yaml_safe_load : string -> value + exn.
Variable yaml_dump : value -> string.
Variable attachment : string -> file_state.
Variable now : nat -> string.
Variable filter_tag : string.
Variable remove_filter_tag : bool.
Variable exclude_dirs : list string.

Local Notation one_note :=
  (process_note yaml_safe_load yaml_dump attachment now filter_tag
                remove_filter_tag exclude_dirs).
Local Notation run :=
  (process_notes yaml_safe_load yaml_dump attachment now filter_tag
                 remove_filter_tag exclude_dirs).

Lemma run_grows (notes : list note_file) : preserves grows (run notes).
Proof.
  apply (preserves_process_notes grows (fun _ => true));
    auto using grows_refl, grows_log, grows_tick, grows_mkdir, grows_write.
  exact grows_trans.
Qed.

(** X1: a run never loses anything, whether it ends normally or with an
    exception: the log it leaves extends the log it found, every
    directory of the output tree is still a directory, every file is still
    a file (nothing is deleted, older output is not cleaned up), and the
    clock has not gone back. *)
Theorem run_loses_nothing (notes : list note_file) (w : world) :
  grows w (world_of (run notes w)).
Proof. apply run_grows. Qed.

(** X2: for notes whose stems are plain names (neither [.] nor [..], so
    that every bundle is a directory of its own below the posts
    directory), a whole run touches nothing but the posts directory
    itself and the bundles of the notes it was given, and the turn of one
    note touches nothing outside the bundle of that note; this holds for
    a run that raises as well. *)
Theorem writes_stay_in_the_bundles (notes : list note_file) (w : world) :
  forallb plain_stem notes = true ->
  same_outside (run_may_write notes) w (world_of (run notes w))
  /\ (forall (n : note_file) (w0 : world),
        In n notes ->
        same_outside (fun q => is_relative_to q (bundle_of n))
                     w0 (world_of (one_note n w0))).
Proof.
  intros _. split.
  - revert w.
    apply (preserves_process_notes
             (same_outside (run_may_write notes)) (run_may_write notes));
      auto using same_outside_refl, same_outside_put.
    + apply same_outside_trans.
    + intros l m w0 q _. reflexivity.
    + intros w0 q _. reflexivity.
    + intros n q Hn Hq. unfold run_may_write.
      apply orb_true_iff. right. apply existsb_exists. eauto.
  - intros n w0 _. revert w0.
    apply (preserves_process_note
             (same_outside (fun q => is_relative_to q (bundle_of n)))
             (fun q => is_relative_to q (bundle_of n)));
      auto using same_outside_refl, same_outside_put.
    + apply same_outside_trans.
    + intros l m w0 q _. reflexivity.
    + intros w0 q _. reflexivity.
Qed.

End OutputTree.

(** ** Running the script again *)

Section Repeat.

Variable final : list (path * node).
Variable now : nat -> string.

(** The clock is held: the date given to a note without one is the only
    value of a run that depends on the time. *)
Hypothesis now_fixed : forall i j, now i = now j.

Local Notation good c := (preserves grows c /\ repeatable final c).

Lemma good_ret A (a : A) : good (ret a).
Proof.
  split; [intros w; apply grows_refl|].
  intros w1 w2 _ HI. split; [reflexivity | exact HI].
Qed.

Lemma good_raise A (e : exn) : good (@raise A e).
Proof.
  split; [intros w; apply grows_refl|].
  intros w1 w2 _ HI. split; [reflexivity | exact HI].
Qed.

Lemma good_logging (l : level) (m : message) : good (logging l m).
Proof.
  split; [intros w; apply grows_log|].
  intros w1 w2 _ HI. split; [reflexivity | exact HI].
Qed.

Lemma good_now : good (now_isoformat now).
Proof.
  split; [intros w; apply grows_tick|].
  intros w1 w2 _ HI. split; [apply now_fixed | exact HI].
Qed.

Lemma good_bind A B (c : M A) (k : A -> M B) :
  good c -> (forall a, good (k a)) -> good (bind c k).
Proof.
  intros [Gc Rc] Hk. split.
  { apply preserves_bind; [exact grows_trans | exact Gc |].
    intros a. apply (Hk a). }
  intros w1 w2 Hg HI. unfold bind in *.
  pose proof (Gc w2) as G2.
  destruct (c w1) as [a w1m|e w1m] eqn:E1; simpl in Hg.
  - assert (G1 : grows w1m w2).
    { eapply grows_trans; [apply (proj1 (Hk a)) | exact Hg]. }
    destruct (Rc w1 w2) as [Hs HI']; [now rewrite E1 | exact HI |].
    rewrite E1 in Hs, HI'. simpl in HI'.
    destruct (c w2) as [b w2m|f w2m]; simpl in Hs, G2, HI';
      [subst b | contradiction].
    apply (proj2 (Hk a)); [|exact HI'].
    eapply grows_trans; [exact Hg | exact G2].
  - destruct (Rc w1 w2) as [Hs HI']; [now rewrite E1 | exact HI |].
    rewrite E1 in Hs, HI'. simpl in HI'.
    destruct (c w2) as [b w2m|f w2m]; simpl in Hs, HI';
      [contradiction | subst f].
    split; [reflexivity | exact HI'].
Qed.

Lemma good_try A (c : M A) (h : exn -> option (M A)) :
  good c -> (forall e handler, h e = Some handler -> good handler) ->
  good (try_except c h).
Proof.
  intros [Gc Rc] Hh. split.
  { apply preserves_try; [exact grows_trans | exact Gc |].
    intros e handler E. apply (Hh e handler E). }
  intros w1 w2 Hg HI. unfold try_except in *.
  pose proof (Gc w2) as G2.
  destruct (c w1) as [a w1m|e w1m] eqn:E1; simpl in Hg.
  - destruct (Rc w1 w2) as [Hs HI']; [now rewrite E1 | exact HI |].
    rewrite E1 in Hs, HI'. simpl in HI'.
    destruct (c w2) as [b w2m|f w2m]; simpl in Hs, HI';
      [subst b | contradiction].
    split; [reflexivity | exact HI'].
  - destruct (h e) as [handler|] eqn:Eh.
    + assert (G1 : grows w1m w2).
      { eapply grows_trans; [apply (proj1 (Hh e handler Eh)) | exact Hg]. }
      destruct (Rc w1 w2) as [Hs HI']; [now rewrite E1 | exact HI |].
      rewrite E1 in Hs, HI'. simpl in HI'.
      destruct (c w2) as [b w2m|f w2m]; simpl in Hs, G2, HI';
        [contradiction | subst f].
      rewrite Eh.
      apply (proj2 (Hh e handler Eh)); [|exact HI'].
      eapply grows_trans; [exact Hg | exact G2].
    + simpl in Hg.
      destruct (Rc w1 w2) as [Hs HI']; [now rewrite E1 | exact HI |].
      rewrite E1 in Hs, HI'. simpl in HI'.
      destruct (c w2) as [b w2m|f w2m]; simpl in Hs, HI';
        [contradiction | subst f].
      rewrite Eh. split; [reflexivity | exact HI'].
Qed.

Lemma mkdir_repeatable (p : path) : repeatable final (mkdir_exist_ok p).
Proof.
  intros w1 w2 Hg HI. unfold mkdir_exist_ok in *.
  destruct Hg as [_ [HD [HF _]]].
  destruct (fs_lookup p (files w1)) as [[|d]|] eqn:E1; simpl in HD, HF.
  - rewrite (HD p E1). split; [reflexivity | exact HI].
  - destruct (HF p d E1) as [d' E2]. rewrite E2.
    split; [reflexivity | exact HI].
  - rewrite (HD p (fs_lookup_put p Dir (files w1))).
    split; [reflexivity|].
    intros q. simpl. rewrite fs_lookup_put_cases.
    destruct (path_eqb q p) eqn:Eq.
    + apply path_eqb_eq in Eq. subst q. right.
      apply (HD p (fs_lookup_put p Dir (files w1))).
    + apply HI.
Qed.

Lemma write_repeatable (p : path) (d : string) :
  repeatable final (write_file p d).
Proof.
  intros w1 w2 Hg HI. unfold write_file in *.
  destruct Hg as [_ [HD [HF _]]].
  assert (Hput :
    fs_lookup p (files w1) <> Some Dir ->
    (forall q d0,
        fs_lookup q (fs_put p (File d) (files w1)) = Some (File d0) ->
        exists d', fs_lookup q (files w2) = Some (File d')) ->
    same_result
      (Return tt (set_files (fs_put p (File d) (files w1)) w1))
      (match fs_lookup p (files w2) with
       | Some Dir => Raise IsADirectoryError w2
       | _ => Return tt (set_files (fs_put p (File d) (files w2)) w2)
       end)
    /\ catching_up final
         (set_files (fs_put p (File d) (files w1)) w1)
         (world_of
            (match fs_lookup p (files w2) with
             | Some Dir => Raise IsADirectoryError w2
             | _ => Return tt (set_files (fs_put p (File d) (files w2)) w2)
             end))).
  { intros _ HF'.
    destruct (HF' p d (fs_lookup_put p (File d) (files w1))) as [d' E2].
    rewrite E2. split; [reflexivity|].
    intros q. simpl. rewrite !fs_lookup_put_cases.
    destruct (path_eqb q p); [now right | apply HI]. }
  destruct (fs_lookup p (files w1)) as [[|d0]|] eqn:E1; simpl in HD, HF.
  - rewrite (HD p E1). split; [reflexivity | exact HI].
  - apply Hput; [discriminate | exact HF].
  - apply Hput; [discriminate | exact HF].
Qed.

Lemma good_mkdir (p : path) : good (mkdir_exist_ok p).
Proof.
  split; [|apply mkdir_repeatable].
  apply (preserves_mkdir grows (fun _ => true));
    auto using grows_refl, grows_mkdir.
Qed.

Lemma good_write (p : path) (d : string) : good (write_file p d).
Proof.
  split; [|apply write_repeatable].
  apply (preserves_write grows (fun _ => true));
    auto using grows_refl, grows_write.
Qed.

Lemma good_copy2 (name : string) (src : file_state) (dst : path) :
  good (copy2 name src dst).
Proof.
  split.
  { apply (preserves_copy2 grows (fun _ => true));
      auto using grows_refl, grows_write.
    exact grows_trans. }
  intros w1 w2 Hg HI. unfold copy2, bind in *.
  destruct src as [|data|e]; cbn [read_file ret raise] in *;
    try (split; [reflexivity | exact HI]).
  destruct (fs_lookup dst (files w1)) as [[|d0]|] eqn:E1.
  - assert (E2 : fs_lookup dst (files w2) = Some Dir).
    { destruct Hg as [_ [HD _]]. apply HD.
      destruct (proj1 (good_write (dst ++ [PurePath.name name])%list data) w1)
        as [_ [HD1 _]].
      apply HD1, E1. }
    rewrite E2. now apply write_repeatable.
  - assert (E2 : exists d', fs_lookup dst (files w2) = Some (File d')).
    { destruct Hg as [_ [_ [HF _]]].
      destruct (proj1 (good_write dst data) w1) as [_ [_ [HF1 _]]].
      destruct (HF1 dst d0 E1) as [d1 E]. apply (HF dst d1 E). }
    destruct E2 as [d' E2].
    pose proof (write_repeatable dst data w1 w2 Hg HI) as H.
    unfold write_file in H at 2 4. rewrite E2 in H. rewrite E2.
    unfold write_file at 2 4. rewrite E2. exact H.
  - assert (E2 : exists d', fs_lookup dst (files w2) = Some (File d')).
    { destruct Hg as [_ [_ [HF _]]].
      unfold write_file in HF. rewrite E1 in HF. simpl in HF.
      apply (HF dst data). apply fs_lookup_put. }
    destruct E2 as [d' E2].
    pose proof (write_repeatable dst data w1 w2 Hg HI) as H.
    unfold write_file in H at 2 4. rewrite E2 in H. rewrite E2.
    unfold write_file at 2 4. rewrite E2. exact H.
Qed.

Variable yaml_safe_load : string -> value + exn.
Variable yaml_dump : value -> string.
Variable attachment : string -> file_state.
Variable filter_tag : string.
Variable remove_filter_tag : bool.
Variable exclude_dirs : list string.

Lemma run_repeatable (notes : list note_file) :
  repeatable final
    (process_notes yaml_safe_load yaml_dump attachment now filter_tag
                   remove_filter_tag exclude_dirs notes).
Proof.
  apply (P_process_notes
           (fun A c => preserves grows c /\ repeatable final c)
           (fun _ => true) now);
    auto using good_ret, good_raise, good_bind, good_try, good_logging,
      good_now, good_mkdir, good_write, good_copy2.
Qed.

End Repeat.

(** ** Which notes are converted *)

Section Selection.

Variable yaml_safe_load : string -> value + exn.
Variable yaml_dump : value -> string.
Variable attachment : string -> file_state.
Variable now : nat -> string.
Variable filter_tag : string.
Variable remove_filter_tag : bool.
Variable exclude_dirs : list string.

Local Notation parse := (parse_note_content yaml_safe_load).
Local Notation one_note :=
  (process_note yaml_safe_load yaml_dump attachment now filter_tag
                remove_filter_tag exclude_dirs).
Local Notation run :=
  (process_notes yaml_safe_load yaml_dump attachment now filter_tag
                 remove_filter_tag exclude_dirs).

Lemma is_relative_to_iff (p base : path) :
  is_relative_to p base = true <-> exists rest, p = (base ++ rest)%list.
Proof.
  revert p; induction base as [|b base IH]; intros p; simpl.
  - split; [intros _; now exists p | intros _; now destruct p].
  - destruct p as [|c p]; simpl.
    + split; [discriminate | intros [rest H]; discriminate].
    + rewrite andb_true_iff, String.eqb_eq, IH. split.
      * intros [-> [rest ->]]. now exists rest.
      * intros [rest H]. inversion H; subst. eauto.
Qed.






(** X4: a note that has no front-matter block, or whose block PyYAML
    rejects, is never converted, whatever the selection tag is (the empty
    tag included): the turn returns after the skip record and the output
    tree is as it was. *)
Theorem notes_without_front_matter_are_skipped (n : note_file)
    (full : string) (w : world) :
  excluded exclude_dirs n = false ->
  note_src n = Regular full ->
  (Re.FRONT_MATTER_PATTERN_match full = None \/
   exists g rest,
     Re.FRONT_MATTER_PATTERN_match full = Some (g, rest)
     /\ yaml_safe_load g = inr YAMLError) ->
  exists w',
    one_note n w
    = Return tt (logged DEBUG (SkipNoTag (note_name n) filter_tag) w')
    /\ files w' = files w.
Proof.
  intros Hex Hsrc Hfm.
  assert (Hp : exists w', parse full (logged INFO (Checking (note_path n)) w)
                          = Return (PDict [], full) w'
                          /\ files w' = files w).
  { unfold parse_note_content.
    destruct Hfm as [-> | [g [rest [-> Hy]]]].
    - eexists. split; reflexivity.
    - unfold try_except, bind. rewrite Hy. eexists. split; reflexivity. }
  destruct Hp as [w' [Hp Hf]]. exists w'. split; [|exact Hf].
  unfold process_note. rewrite Hex, Hsrc.
  unfold bind at 1. unfold logging at 1.
  unfold bind at 1. cbn [read_file]. unfold ret at 1.
  unfold bind at 1. rewrite Hp. reflexivity.
Qed.

(** X5: a note whose [tags] property is a truthy value that is neither a
    string nor a collection (a number other than zero, [true], a date)
    makes the membership test raise [TypeError]: the note is neither
    skipped nor converted, and nothing has been written for it. *)
Theorem scalar_tags_raise_TypeError (n : note_file) (full content : string)
    (d : dict) (v : value) (w w1 : world) :
  excluded exclude_dirs n = false ->
  note_src n = Regular full ->
  parse full (logged INFO (Checking (note_path n)) w)
  = Return (PDict d, content) w1 ->
  dict_get "tags" d = Some v ->
  truthy_scalar v = true ->
  one_note n w = Raise TypeError w1 /\ files w1 = files w.
Proof.
  intros Hex Hsrc Hp Hd Hv. split.
  - unfold process_note. rewrite Hex, Hsrc.
    unfold bind at 1. unfold logging at 1.
    unfold bind at 1. cbn [read_file]. unfold ret at 1.
    unfold bind at 1. rewrite Hp. cbn [fst snd].
    unfold bind at 1. cbn [get_method]. unfold ret at 1.
    rewrite Hd.
    destruct v; try discriminate Hv; cbn [truthy_scalar truthy] in Hv;
      unfold normalize_tags; cbn [truthy]; try rewrite Hv; reflexivity.
  - unfold parse_note_content in Hp.
    destruct (Re.FRONT_MATTER_PATTERN_match full) as [[g rest]|].
    + unfold try_except, bind, ret, raise in Hp.
      destruct (yaml_safe_load g) as [v0|e].
      * now inversion Hp.
      * destruct e; inversion Hp; reflexivity.
    + now inversion Hp.
Qed.

End Selection.

(** ** The mapping that is written *)

Section Properties.

Variable now : nat -> string.
Variable filter_tag : string.
Variable remove_filter_tag : bool.

Local Notation prepare := (prepare_properties now filter_tag remove_filter_tag).

Lemma dict_get_del_other (k1 k2 : string) (d : dict) :
  k1 <> k2 -> dict_get k1 (dict_del k2 d) = dict_get k1 d.
Proof.
  intros Hne. unfold dict_del.
  induction d as [|[k' v'] d IH]; simpl; [reflexivity|].
  destruct (str_eq k2 k') eqn:E2; simpl.
  - apply str_eq_true in E2. subst k'. simpl.
    destruct (String.eqb_spec k2 k1); [congruence | exact IH].
  - destruct (str_eq k1 k'); [reflexivity | exact IH].
Qed.

Lemma keys_dict_set (k : string) (v : value) (d : dict) :
  map fst (dict_set k v d) = keys_with k (map fst d).
Proof.
  unfold keys_with. induction d as [|[k' v'] d IH]; simpl; [reflexivity|].
  destruct (str_eq k k') eqn:E; simpl; [reflexivity|].
  rewrite IH. now destruct (existsb (str_eq k) (map fst d)).
Qed.

Lemma keys_dict_del (k : string) (d : dict) :
  map fst (dict_del k d)
  = filter (fun key => negb (str_eq k key)) (map fst d).
Proof.
  unfold dict_del. induction d as [|[k' v'] d IH]; simpl; [reflexivity|].
  destruct (str_eq k k'); simpl; now rewrite IH.
Qed.

Lemma dict_has_keys (k : string) (d : dict) :
  dict_has k d = existsb (str_eq k) (map fst d).
Proof.
  unfold dict_has. induction d as [|[k' v'] d IH]; simpl; [reflexivity|].
  now rewrite IH.
Qed.

Lemma dict_get_keys (k : string) (d : dict) (v : value) :
  dict_get k d = Some v -> existsb (str_eq k) (map fst d) = true.
Proof.
  induction d as [|[k' v'] d IH]; simpl; [discriminate|].
  destruct (str_eq k k'); [reflexivity | exact IH].
Qed.

Lemma filter_dict_set (keep : value -> bool) (k : string) (v : value)
    (d : dict) :
  keep (PStr k) = false ->
  filter (fun e => keep (fst e)) (dict_set k v d)
  = filter (fun e => keep (fst e)) d.
Proof.
  intros Hk. induction d as [|[k' v'] d IH]; simpl.
  - now rewrite Hk.
  - destruct (str_eq k k') eqn:E; simpl.
    + apply str_eq_true in E. subst k'. now rewrite Hk.
    + now rewrite IH.
Qed.

Lemma filter_dict_del (keep : value -> bool) (k : string) (d : dict) :
  keep (PStr k) = false ->
  filter (fun e => keep (fst e)) (dict_del k d)
  = filter (fun e => keep (fst e)) d.
Proof.
  intros Hk. unfold dict_del. induction d as [|[k' v'] d IH]; simpl;
    [reflexivity|].
  destruct (str_eq k k') eqn:E; simpl.
  - apply str_eq_true in E. subst k'. now rewrite Hk.
  - now rewrite IH.
Qed.

(** The tag update on a sequence of tags. *)
Lemma update_tags_spec (tags : list value) (d : dict) (w : world) :
  exists d1 w1,
    update_tags filter_tag remove_filter_tag (PList tags) d w
    = Return d1 w1
    /\ clock w1 = clock w
    /\ (forall k, k <> "tags" -> dict_get k d1 = dict_get k d)
    /\ other_items d1 = other_items d
    /\ map fst d1
       = (if remove_filter_tag
          then match Spec.without filter_tag tags with
               | [] => filter (fun key => negb (str_eq "tags" key))
                              (map fst d)
               | _ => keys_with "tags" (map fst d)
               end
          else keys_with "tags" (map fst d)).
Proof.
  unfold update_tags, Spec.without. destruct remove_filter_tag.
  - unfold bind at 1 2. cbn [logging py_iter ret].
    destruct (filter (fun t => negb (str_eq filter_tag t)) tags)
      as [|t kept].
    + destruct (dict_has "tags" d) eqn:Hhas.
      * eexists; eexists. split; [reflexivity|]. split; [reflexivity|].
        split; [|split; [|apply keys_dict_del]].
        -- intros k Hk. now apply dict_get_del_other.
        -- now apply (filter_dict_del
             (fun key => negb (str_eq "tags" key || str_eq "title" key
                               || str_eq "date" key))).
      * eexists; eexists. split; [reflexivity|]. split; [reflexivity|].
        split; [reflexivity|]. split; [reflexivity|].
        rewrite dict_has_keys in Hhas.
        induction (map fst d) as [|key keys IH]; [reflexivity|].
        cbn [existsb filter] in *.
        apply orb_false_iff in Hhas as [Hk Hks].
        rewrite Hk. cbn [negb]. f_equal. now apply IH.
    + eexists; eexists. split; [reflexivity|]. split; [reflexivity|].
      split; [|split; [|apply keys_dict_set]].
      * intros k Hk. now apply dict_get_set_other.
      * now apply (filter_dict_set
           (fun key => negb (str_eq "tags" key || str_eq "title" key
                             || str_eq "date" key))).
  - eexists; eexists. split; [reflexivity|]. split; [reflexivity|].
    split; [|split; [|apply keys_dict_set]].
    + intros k Hk. now apply dict_get_set_other.
    + now apply (filter_dict_set
         (fun key => negb (str_eq "tags" key || str_eq "title" key
                           || str_eq "date" key))).
Qed.

(** One default: [if not properties.get(k): properties[k] = dflt]. *)
Lemma default_spec (k : string) (dflt : value) (d : dict) :
  let d' := if get_is_falsy k d then dict_set k dflt d else d in
  dict_get k d' = Some (defaulted k dflt d)
  /\ (forall k', k' <> k -> dict_get k' d' = dict_get k' d)
  /\ map fst d' = keys_with k (map fst d).
Proof.
  unfold get_is_falsy, defaulted. simpl.
  destruct (dict_get k d) as [v|] eqn:E.
  - destruct (truthy v); simpl.
    + repeat split; auto.
      unfold keys_with. now rewrite (dict_get_keys k d v E).
    + rewrite dict_get_set_same. repeat split.
      * intros k' Hk. now apply dict_get_set_other.
      * apply keys_dict_set.
  - rewrite dict_get_set_same. repeat split.
    + intros k' Hk. now apply dict_get_set_other.
    + apply keys_dict_set.
Qed.

Lemma prepare_unfold (stem : string) (tags : list value) (d : dict)
    (w : world) :
  exists d1 w1,
    update_tags filter_tag remove_filter_tag (PList tags) d w
    = Return d1 w1
    /\ clock w1 = clock w
    /\ exists w',
         prepare stem (PList tags) d w
         = Return
             (let d2 := if get_is_falsy "title" d1
                        then dict_set "title" (PStr stem) d1 else d1 in
              if get_is_falsy "date" d2
              then dict_set "date" (PStr (now (clock w))) d2 else d2)
             w'.
Proof.
  destruct (update_tags_spec tags d w) as [d1 [w1 [Hu [Hc _]]]].
  exists d1, w1. split; [exact Hu|]. split; [exact Hc|].
  unfold prepare_properties. unfold bind at 1. rewrite Hu.
  unfold default_title, default_date, bind.
  destruct (get_is_falsy "title" d1); cbn [logging ret];
    match goal with
    | |- context [get_is_falsy "date" ?d2] =>
        destruct (get_is_falsy "date" d2)
    end;
    cbn [logging ret now_isoformat logged clock]; rewrite ?Hc;
    eexists; reflexivity.
Qed.

Lemma other_items_default (k : string) (dflt : value) (d : dict) :
  negb (str_eq "tags" (PStr k) || str_eq "title" (PStr k)
        || str_eq "date" (PStr k)) = false ->
  other_items (if get_is_falsy k d then dict_set k dflt d else d)
  = other_items d.
Proof.
  intros Hk. destruct (get_is_falsy k d); [|reflexivity].
  now apply (filter_dict_set
    (fun key => negb (str_eq "tags" key || str_eq "title" key
                      || str_eq "date" key))).
Qed.

(** X6: the mapping that is written always has a [title] and a [date]: a
    truthy value the note gave is kept, a missing or falsy one is replaced
    by the file name without its extension, respectively by the time of
    the run; the properties under every other key than [tags], [title]
    and [date] are passed through, values and order unchanged. *)
Theorem title_and_date_are_always_set (stem : string) (tags : list value)
    (d : dict) (w : world) :
  exists d' w',
    prepare stem (PList tags) d w = Return d' w'
    /\ dict_get "title" d' = Some (defaulted "title" (PStr stem) d)
    /\ dict_get "date" d'
       = Some (defaulted "date" (PStr (now (clock w))) d)
    /\ other_items d' = other_items d.
Proof.
  destruct (prepare_unfold stem tags d w)
    as [d1 [w1 [Hu [Hc [w' Hp]]]]].
  destruct (update_tags_spec tags d w)
    as [d1' [w1' [Hu' [_ [Hk [Ho _]]]]]].
  rewrite Hu in Hu'. injection Hu' as <- <-.
  eexists; exists w'. split; [exact Hp|]. cbv zeta.
  destruct (default_spec "title" (PStr stem) d1) as [Ht [Hto _]].
  cbv zeta in Ht, Hto.
  pose proof (other_items_default "title" (PStr stem) d1 eq_refl) as Ho1.
  set (d2 := if get_is_falsy "title" d1
             then dict_set "title" (PStr stem) d1 else d1) in *.
  destruct (default_spec "date" (PStr (now (clock w))) d2) as [Hd [Hdo _]].
  cbv zeta in Hd, Hdo.
  pose proof (other_items_default "date" (PStr (now (clock w))) d2 eq_refl)
    as Ho2.
  split; [|split].
  - rewrite Hdo by discriminate. rewrite Ht.
    unfold defaulted. now rewrite Hk by discriminate.
  - rewrite Hd. unfold defaulted.
    rewrite Hto by discriminate. now rewrite Hk by discriminate.
  - now rewrite Ho2, Ho1, Ho.
Qed.

(** X7: the keys of the mapping that is written come in the order the
    note had them, a key that is added ([tags], then [title], then [date])
    going last; the [tags] key disappears only when the remove option
    leaves no tag. *)
Theorem key_order_is_kept (stem : string) (tags : list value) (d : dict)
    (w : world) :
  exists d' w',
    prepare stem (PList tags) d w = Return d' w'
    /\ map fst d'
       = keys_with "date"
           (keys_with "title"
              (if remove_filter_tag
               then match Spec.without filter_tag tags with
                    | [] => filter (fun key => negb (str_eq "tags" key))
                                   (map fst d)
                    | _ => keys_with "tags" (map fst d)
                    end
               else keys_with "tags" (map fst d))).
Proof.
  destruct (prepare_unfold stem tags d w)
    as [d1 [w1 [Hu [Hc [w' Hp]]]]].
  destruct (update_tags_spec tags d w)
    as [d1' [w1' [Hu' [_ [_ [_ Hkeys]]]]]].
  rewrite Hu in Hu'. injection Hu' as <- <-.
  eexists; exists w'. split; [exact Hp|]. cbv zeta.
  destruct (default_spec "title" (PStr stem) d1) as [_ [_ Ht]].
  cbv zeta in Ht.
  set (d2 := if get_is_falsy "title" d1
             then dict_set "title" (PStr stem) d1 else d1) in *.
  destruct (default_spec "date" (PStr (now (clock w))) d2) as [_ [_ Hd]].
  cbv zeta in Hd. now rewrite Hd, Ht, Hkeys.
Qed.

End Properties.

(** ** Hashing and target names *)

Section Targets.

Lemma hex_digit_in (f : ascii -> bool) (d : Z) :
  forallb f (list_ascii_of_string "0123456789abcdef") = true ->
  f (MD5.hex_digit d) = true.
Proof.
  intros H. unfold MD5.hex_digit.
  rewrite forallb_forall in H.
  destruct (nth_in_or_default (Z.to_nat d)
              (list_ascii_of_string "0123456789abcdef") "0"%char)
    as [Hin | ->].
  - now apply H.
  - apply H. simpl. now left.
Qed.

(** Every character of a digest is one of the sixteen digits. *)
Lemma hexdigest_chars (f : ascii -> bool) (data : string) :
  forallb f (list_ascii_of_string "0123456789abcdef") = true ->
  String.length (MD5.hexdigest data) = 32
  /\ all_chars f (MD5.hexdigest data) = true.
Proof.
  intros H. unfold MD5.hexdigest.
  destruct (fold_left MD5.compress _ MD5.init) as [[[a b] c] d].
  cbn [MD5.le_bytes List.app map String.concat MD5.hex_byte append
       all_chars String.length].
  rewrite !(hex_digit_in f _ H). split; reflexivity.
Qed.

(** X8: [calculate_md5] on a readable file returns the MD5 digest of the
    whole content, whatever the content's length is against the chunk
    size, as 32 lowercase hexadecimal digits, and logs nothing; on a file
    that is not there it logs one warning and returns nothing; any other
    failure of the read is raised.  It never raises [FileNotFoundError]
    and never touches the output tree. *)
Theorem calculate_md5_outcomes (file_path : string) (f : file_state)
    (w : world) :
  calculate_md5 file_path f w
  = match f with
    | Regular data => Return (Some (MD5.hexdigest data)) w
    | Absent | Unreadable FileNotFoundError =>
        Return None (logged WARNING (HashFileNotFound file_path) w)
    | Unreadable e => Raise e w
    end
  /\ (forall data,
        String.length (MD5.hexdigest data) = 32
        /\ all_chars is_hex (MD5.hexdigest data) = true).
Proof.
  split.
  - destruct f as [|data|e].
    + reflexivity.
    + apply calculate_md5_regular.
    + destruct e; reflexivity.
  - intros data. now apply hexdigest_chars.
Qed.

Lemma split_parts (sep : ascii) (s : string) :
  Forall (fun t => all_chars (fun c => negb (Ascii.eqb c sep)) t = true)
         (split sep s).
Proof.
  induction s as [|c s IH]; simpl.
  - repeat constructor.
  - destruct (Ascii.eqb c sep) eqn:E.
    + constructor; [reflexivity | exact IH].
    + destruct (split sep s) as [|t ts]; inversion IH; subst.
      * repeat constructor. simpl. now rewrite E.
      * constructor; [|assumption]. simpl. rewrite E. simpl. assumption.
Qed.

Lemma last_Forall {X} (Q : X -> Prop) (l : list X) (dflt : X) :
  Q dflt -> Forall Q l -> Q (last l dflt).
Proof.
  intros Hd H. induction H as [|x l Hx Hl IH]; simpl; [exact Hd|].
  destruct l; [exact Hx | exact IH].
Qed.

Lemma Forall_filter {X} (Q : X -> Prop) (f : X -> bool) (l : list X) :
  Forall Q l -> Forall Q (filter f l).
Proof.
  intros H. induction H as [|x l Hx Hl IH]; simpl; [constructor|].
  destruct (f x); [now constructor | exact IH].
Qed.

Lemma name_no_slash (p : string) :
  all_chars no_slash (PurePath.name p) = true.
Proof.
  unfold PurePath.name.
  apply (last_Forall (fun t => all_chars no_slash t = true));
    [reflexivity|].
  apply Forall_filter. apply (split_parts "/" p).
Qed.

Lemma rsplit_dot_parts (s pre ext : string) :
  PurePath.rsplit_dot s = Some (pre, ext) -> s = pre ++ String "." ext.
Proof.
  revert pre ext; induction s as [|c s IH]; intros pre ext H;
    [discriminate|]. cbn [PurePath.rsplit_dot] in H.
  destruct (PurePath.rsplit_dot s) as [[pre' ext']|].
  - injection H as <- <-. cbn [append]. f_equal. now apply IH.
  - destruct (Ascii.eqb_spec c "."); [|discriminate].
    injection H as <- <-. now subst c.
Qed.

(** The suffix is made of characters of the last component. *)
Lemma suffix_chars (f : ascii -> bool) (p : string) :
  all_chars f (PurePath.name p) = true ->
  all_chars f (PurePath.suffix p) = true.
Proof.
  unfold PurePath.suffix. intros H.
  destruct (PurePath.rsplit_dot (PurePath.name p)) as [[pre ext]|] eqn:E;
    [|reflexivity].
  destruct (String.eqb pre "" || String.eqb ext ""); [reflexivity|].
  apply rsplit_dot_parts in E. rewrite E, all_chars_app in H.
  now apply andb_prop in H as [_ H].
Qed.

(** X9: the name under which an attachment is copied is flat: the
    digits of the digest followed by an extension taken from the last
    component of the reference, with no path separator in it, so that a
    reference into a sub-directory of the attachments directory lands
    directly in the bundle. *)
Theorem target_name_is_flat (data original_filename : string) :
  all_chars no_slash
    (new_filename (MD5.hexdigest data) original_filename) = true.
Proof.
  unfold new_filename. rewrite all_chars_app.
  rewrite (proj2 (hexdigest_chars no_slash data eq_refl)).
  apply suffix_chars, name_no_slash.
Qed.

End Targets.

(** ** The tokens of the body *)

Section Tokens.

Variable attachment : string -> file_state.

Local Notation resolve := (resolve_attachments attachment).

Lemma strip_prefix_extend (p a b x : string) :
  strip_prefix p a = Some x -> strip_prefix p (a ++ b) = Some (x ++ b).
Proof.
  revert a; induction p as [|c p IH]; intros a H; simpl in *.
  - now inversion H.
  - destruct a as [|d a]; [discriminate|]. simpl.
    destruct (Ascii.eqb c d); [now apply IH | discriminate].
Qed.

Lemma startswith_extend (p a b : string) :
  startswith p a = true -> startswith p (a ++ b) = true.
Proof.
  unfold startswith. destruct (strip_prefix p a) as [x|] eqn:E;
    [|discriminate].
  now rewrite (strip_prefix_extend p a b x E).
Qed.

Lemma contains_mid (p a b : string) : contains p (a ++ p ++ b) = true.
Proof.
  induction a as [|c a IH].
  - cbn [append]. destruct (p ++ b) eqn:E; cbn [contains];
      unfold startswith; rewrite <- E, strip_prefix_app; reflexivity.
  - cbn [append contains]. rewrite IH. apply orb_true_r.
Qed.

Lemma contains_cons (p : string) (c : ascii) (s : string) :
  contains p (String c s) = startswith p (String c s) || contains p s.
Proof. reflexivity. Qed.

(** What the shared tail [(.*?)\]\]] has read. *)
Lemma lazy_until_close_sound (s : string) :
  forall g r,
    Re.lazy_until_close s = Some (g, r) ->
    s = g ++ "]]" ++ r
    /\ all_chars (fun c => negb (is_newline c)) g = true
    /\ contains "]]" g = false.
Proof.
  induction s as [|c s IH]; intros g r H.
  - discriminate.
  - cbn [Re.lazy_until_close] in H.
    destruct (strip_prefix "]]" (String c s)) as [r0|] eqn:E.
    + injection H as <- <-. apply strip_prefix_sound in E.
      repeat split; auto.
    + destruct (is_newline c) eqn:Hc; [discriminate|].
      destruct (Re.lazy_until_close s) as [[g' r']|] eqn:E';
        [|discriminate].
      injection H as <- <-.
      destruct (IH _ _ eq_refl) as [Es [Hn Hcl]].
      repeat split.
      * cbn [append]. now f_equal.
      * cbn [all_chars]. now rewrite Hc, Hn.
      * rewrite contains_cons, Hcl, orb_false_r.
        destruct (startswith "]]" (String c g')) eqn:Hs; [|reflexivity].
        apply (startswith_extend _ _ ("]]" ++ r')) in Hs.
        change (String c g' ++ "]]" ++ r')
          with (String c (g' ++ "]]" ++ r')) in Hs.
        unfold startswith in Hs. rewrite <- Es, E in Hs. discriminate.
Qed.

Lemma finditer_from_sound (s : string) :
  forall skip g0 g1,
    In (g0, g1) (Re.finditer_attachment_pattern_from skip s) ->
    (exists pre post, s = pre ++ g0 ++ post)
    /\ g0 = "![[" ++ g1 ++ "]]"
    /\ all_chars (fun c => negb (is_newline c)) g1 = true
    /\ contains "]]" g1 = false.
Proof.
  induction s as [|c s IH]; intros skip g0 g1 H; [contradiction|].
  assert (Htail : forall k,
    In (g0, g1) (Re.finditer_attachment_pattern_from k s) ->
    (exists pre post, String c s = pre ++ g0 ++ post)
    /\ g0 = "![[" ++ g1 ++ "]]"
    /\ all_chars (fun c => negb (is_newline c)) g1 = true
    /\ contains "]]" g1 = false).
  { intros k Hk. destruct (IH _ _ _ Hk) as [[pre [post E]] Hrest].
    split; [|exact Hrest]. exists (String c pre), post.
    cbn [append]. now f_equal. }
  cbn [Re.finditer_attachment_pattern_from] in H.
  destruct skip as [|k]; [|now apply (Htail k)].
  destruct (Re.match_attachment_pattern (String c s)) as [[g r]|] eqn:E;
    [|now apply (Htail 0)].
  cbv zeta in H. destruct H as [H|H]; [|now apply (Htail _ H)].
  injection H as <- <-.
  unfold Re.match_attachment_pattern in E.
  destruct (strip_prefix "![[" (String c s)) as [r0|] eqn:Ep;
    [|discriminate].
  apply strip_prefix_sound in Ep.
  destruct (lazy_until_close_sound _ _ _ E) as [Er [Hn Hcl]].
  repeat split; auto.
  exists "", r. rewrite Ep, Er. cbn [append].
  now rewrite !app_assoc.
Qed.

(** X10: every embed token found in a body is the text [![[name]]] for
    the name that is looked up, that text occurs in the body (so that the
    later substitution finds it), and the name holds no newline and no
    []]]: a token never runs over the end of a line or past the first
    closing brackets. *)
Theorem embed_tokens_are_well_formed (content g0 g1 : string) :
  In (g0, g1) (Re.finditer_attachment_pattern content) ->
  g0 = "![[" ++ g1 ++ "]]"
  /\ contains g0 content = true
  /\ all_chars (fun c => negb (is_newline c)) g1 = true
  /\ contains "]]" g1 = false.
Proof.
  intros H. destruct (finditer_from_sound _ _ _ _ H)
    as [[pre [post E]] [H0 [Hn Hcl]]].
  repeat split; auto. rewrite E. apply contains_mid.
Qed.

(** X11: when none of the attachments named in a body exists, the
    attachment loop records no replacement, writes nothing and raises
    nothing; it logs one warning for each token, in their order. *)
Theorem missing_attachments_change_nothing (bundle : string)
    (matches repl : list (string * string)) (w : world) :
  (forall tok name, In (tok, name) matches -> attachment name = Absent) ->
  resolve bundle matches repl w
  = Return repl
      (fold_left
         (fun w0 m => logged WARNING (AttachmentMissing (snd m)) w0)
         matches w)
  /\ files (fold_left
              (fun w0 m => logged WARNING (AttachmentMissing (snd m)) w0)
              matches w)
     = files w.
Proof.
  revert w; induction matches as [|[tok name] rest IH]; intros w H.
  - split; reflexivity.
  - cbn [resolve_attachments fold_left snd].
    rewrite (H tok name) by now left.
    unfold bind at 1. cbn [logging].
    destruct (IH (logged WARNING (AttachmentMissing name) w)) as [E F].
    { intros t nm Hin. apply (H t nm). now right. }
    split; [exact E | exact F].
Qed.

End Tokens.

(** ** The rewriting of the body *)

Section Rewriting.

Variable attachment : string -> file_state.

Lemma contains_false_cons (p : string) (c : ascii) (s : string) :
  contains p (String c s) = false ->
  startswith p (String c s) = false /\ contains p s = false.
Proof. rewrite contains_cons. apply orb_false_iff. Qed.

Lemma no_embed_without_brackets (s : string) :
  contains "[[" s = false -> Re.match_attachment_pattern s = None.
Proof.
  intros H. unfold Re.match_attachment_pattern.
  destruct (strip_prefix "![[" s) as [r|] eqn:E; [|reflexivity].
  apply strip_prefix_sound in E. subst s.
  change ("![[" ++ r) with ("!" ++ "[[" ++ r) in H.
  now rewrite contains_mid in H.
Qed.

Lemma no_wikilink_without_brackets (p2 p1 : option ascii) (s : string) :
  startswith "[[" s = false -> Re.match_wikilink_pattern p2 p1 s = None.
Proof.
  unfold Re.match_wikilink_pattern, startswith. intros H.
  destruct (Re.lookbehind_ok p2 p1); [|reflexivity].
  now destruct (strip_prefix "[[" s).
Qed.

Lemma finditer_without_brackets (s : string) :
  forall k,
    contains "[[" s = false ->
    Re.finditer_attachment_pattern_from k s = [].
Proof.
  induction s as [|c s IH]; intros k H; [reflexivity|].
  cbn [Re.finditer_attachment_pattern_from].
  rewrite (no_embed_without_brackets _ H).
  apply contains_false_cons in H as [_ H].
  destruct k; now apply IH.
Qed.

Lemma search_without_brackets (s : string) :
  forall p2 p1,
    contains "[[" s = false ->
    Re.search_wikilink_pattern_from p2 p1 s = false.
Proof.
  induction s as [|c s IH]; intros p2 p1 H; [reflexivity|].
  cbn [Re.search_wikilink_pattern_from].
  apply contains_false_cons in H as [Hs H].
  rewrite (no_wikilink_without_brackets p2 p1 _ Hs). now apply IH.
Qed.

Lemma sub_without_brackets (s : string) :
  forall p2 p1,
    contains "[[" s = false ->
    Re.sub_wikilink_pattern_from 0 p2 p1 s = s.
Proof.
  induction s as [|c s IH]; intros p2 p1 H; [reflexivity|].
  rewrite sub_wikilink_step.
  apply contains_false_cons in H as [Hs H].
  rewrite (no_wikilink_without_brackets p2 p1 _ Hs). f_equal.
  now apply IH.
Qed.

(** X12: a body in which no [[[] occurs goes through the rewriting as
    it is: no attachment is looked up, nothing is copied or logged, and
    the text that will be written is the text that was read. *)
Theorem plain_bodies_are_emitted_verbatim (stem content : string)
    (w : world) :
  contains "[[" content = false ->
  rewrite_content attachment stem content w = Return content w.
Proof.
  intros H. unfold rewrite_content, Re.finditer_attachment_pattern.
  rewrite (finditer_without_brackets content 0 H).
  cbn [resolve_attachments]. unfold bind at 1. unfold ret at 1.
  cbn [apply_replacements]. unfold bind at 1. unfold ret at 1.
  unfold strip_wikilinks, Re.search_wikilink_pattern.
  now rewrite (search_without_brackets content None None H).
Qed.

Lemma lazy_until_close_name (name : string) :
  all_chars name_char name = true ->
  Re.lazy_until_close (name ++ "]]") = Some (name, "").
Proof.
  induction name as [|c name IH]; intros H; [reflexivity|].
  cbn [all_chars] in H. apply andb_prop in H as [Hc Hn].
  unfold name_char in Hc. apply andb_prop in Hc as [Hnl Hbr].
  apply negb_true_iff in Hnl, Hbr.
  cbn [append Re.lazy_until_close].
  replace (strip_prefix "]]" (String c (name ++ "]]")))
    with (@None string).
  - rewrite Hnl, (IH Hn). reflexivity.
  - cbn [strip_prefix]. rewrite Ascii.eqb_sym, Hbr. reflexivity.
Qed.

Lemma no_bracket_no_pair (s : string) :
  all_chars no_bracket s = true -> contains "[[" s = false.
Proof.
  induction s as [|c s IH]; intros H; [reflexivity|].
  cbn [all_chars] in H. apply andb_prop in H as [Hc Hs].
  rewrite contains_cons, (IH Hs), orb_false_r.
  unfold no_bracket in Hc. apply negb_true_iff in Hc.
  unfold startswith. cbn [strip_prefix].
  now rewrite Ascii.eqb_sym, Hc.
Qed.

Lemma search_wikilink_step (c : ascii) (s : string)
    (p2 p1 : option ascii) :
  Re.search_wikilink_pattern_from p2 p1 (String c s)
  = match Re.match_wikilink_pattern p2 p1 (String c s) with
    | Some _ => true
    | None => Re.search_wikilink_pattern_from p1 (Some c) s
    end.
Proof. reflexivity. Qed.

(** X13: what the wiki-link step does to a text that is one token whose
    name has no newline and no bracket: a wiki-link gives its name, an
    embed token gives its name after the exclamation mark, and only an
    embed token that follows a backslash is left as it is (and then
    nothing is logged). *)
Theorem wikilink_step_on_one_token (name : string) (w : world) :
  all_chars name_char name = true ->
  all_chars no_bracket name = true ->
  strip_wikilinks ("[[" ++ name ++ "]]") w
  = Return name (logged INFO UpdatingWikilinks w)
  /\ strip_wikilinks ("![[" ++ name ++ "]]") w
     = Return ("!" ++ name) (logged INFO UpdatingWikilinks w)
  /\ strip_wikilinks (String backslash ("![[" ++ name ++ "]]")) w
     = Return (String backslash ("![[" ++ name ++ "]]")) w.
Proof.
  intros Hn Hb.
  pose proof (lazy_until_close_name name Hn) as Hl.
  assert (Hm : forall p1,
    Re.match_wikilink_pattern None p1
      (String "[" (String "[" (name ++ "]]"))) = Some (name, "")).
  { intros p1. unfold Re.match_wikilink_pattern.
    cbn [Re.lookbehind_ok negb]. exact Hl. }
  assert (Htail : contains "[[" (String "[" (name ++ "]]")) = false).
  { apply no_bracket_no_pair in Hb as Hp.
    rewrite contains_cons.
    assert (Hq : contains "[[" (name ++ "]]") = false).
    { apply no_bracket_no_pair. rewrite all_chars_app, Hb. reflexivity. }
    rewrite Hq, orb_false_r. unfold startswith.
    destruct name as [|c name]; [reflexivity|]. cbn [strip_prefix append].
    cbn [all_chars] in Hb. apply andb_prop in Hb as [Hc _].
    unfold no_bracket in Hc. apply negb_true_iff in Hc.
    cbn [append]. rewrite Ascii.eqb_refl.
    rewrite (Ascii.eqb_sym "[" c), Hc. reflexivity. }
  repeat split.
  - unfold strip_wikilinks, Re.search_wikilink_pattern,
      Re.sub_wikilink_pattern.
    change ("[[" ++ name ++ "]]")
      with (String "[" (String "[" (name ++ "]]"))).
    rewrite search_wikilink_step, Hm.
    unfold bind, logging, ret. f_equal.
    rewrite sub_wikilink_step, Hm, sub_wikilink_skip.
    + apply app_empty_r.
    + cbn [String.length]. rewrite length_app. simpl. lia.
  - unfold strip_wikilinks, Re.search_wikilink_pattern.
    change ("![[" ++ name ++ "]]")
      with (String "!" (String "[" (String "[" (name ++ "]]")))).
    rewrite search_wikilink_step.
    replace (Re.match_wikilink_pattern None None
               (String "!" (String "[" (String "[" (name ++ "]]")))))
      with (@None (string * string)) by reflexivity.
    rewrite search_wikilink_step, Hm.
    unfold bind, logging, ret. f_equal.
    apply (embed_token_is_stripped name Hl).
  - unfold strip_wikilinks, Re.search_wikilink_pattern,
      Re.sub_wikilink_pattern.
    change ("![[" ++ name ++ "]]")
      with (String "!" (String "[" (String "[" (name ++ "]]")))).
    rewrite search_wikilink_step.
    replace (Re.match_wikilink_pattern None None
               (String backslash
                  (String "!" (String "[" (String "[" (name ++ "]]"))))))
      with (@None (string * string)) by reflexivity.
    rewrite search_wikilink_step.
    replace (Re.match_wikilink_pattern None (Some backslash)
               (String "!" (String "[" (String "[" (name ++ "]]")))))
      with (@None (string * string)) by reflexivity.
    rewrite search_wikilink_step.
    replace (Re.match_wikilink_pattern (Some backslash) (Some "!"%char)
               (String "[" (String "[" (name ++ "]]"))))
      with (@None (string * string)) by reflexivity.
    now rewrite (search_without_brackets _ _ _ Htail).
Qed.

End Rewriting.

(** ** One resolved token, and the bundle of a note *)

Section Bundles.

Variable yaml_dump : value -> string.
Variable attachment : string -> file_state.
Variable now : nat -> string.
Variable filter_tag : string.
Variable remove_filter_tag : bool.

Lemma finditer_skip (s : string) :
  forall k,
    String.length s <= k -> Re.finditer_attachment_pattern_from k s = [].
Proof.
  induction s as [|c s IH]; intros k H; [reflexivity|].
  destruct k as [|k]; cbn [String.length] in H; [lia|].
  cbn [Re.finditer_attachment_pattern_from]. apply IH. lia.
Qed.

Lemma finditer_step (c : ascii) (s : string) :
  Re.finditer_attachment_pattern_from 0 (String c s)
  = match Re.match_attachment_pattern (String c s) with
    | Some (g, _) =>
        ("![[" ++ g ++ "]]", g)
          :: Re.finditer_attachment_pattern_from (String.length g + 4) s
    | None => Re.finditer_attachment_pattern_from 0 s
    end.
Proof. reflexivity. Qed.

Lemma replace_skip (old new s : string) :
  forall k, String.length s <= k -> replace_from old new k s = "".
Proof.
  induction s as [|c s IH]; intros k H; [reflexivity|].
  destruct k as [|k]; cbn [String.length] in H; [lia|].
  cbn [replace_from]. apply IH. lia.
Qed.

Lemma startswith_refl (p : string) : startswith p p = true.
Proof.
  unfold startswith. induction p as [|c p IH]; [reflexivity|].
  cbn [strip_prefix]. now rewrite Ascii.eqb_refl.
Qed.

Lemma replace_self (c : ascii) (old new : string) :
  replace (String c old) new (String c old) = new.
Proof.
  unfold replace. cbn [replace_from]. rewrite startswith_refl.
  rewrite replace_skip; [apply app_empty_r|].
  cbn [String.length]. lia.
Qed.

Lemma no_close_no_pair (s : string) :
  all_chars no_close s = true -> contains "]]" s = false.
Proof.
  induction s as [|c s IH]; intros H; [reflexivity|].
  cbn [all_chars] in H. apply andb_prop in H as [Hc Hs].
  rewrite contains_cons, (IH Hs), orb_false_r.
  unfold no_close in Hc. apply negb_true_iff in Hc.
  unfold startswith. cbn [strip_prefix].
  now rewrite Ascii.eqb_sym, Hc.
Qed.

Lemma search_without_close (s : string) :
  forall p2 p1,
    contains "]]" s = false ->
    Re.search_wikilink_pattern_from p2 p1 s = false.
Proof.
  induction s as [|c s IH]; intros p2 p1 H; [reflexivity|].
  rewrite search_wikilink_step.
  assert (Hm : Re.match_wikilink_pattern p2 p1 (String c s) = None).
  { unfold Re.match_wikilink_pattern.
    destruct (Re.lookbehind_ok p2 p1); [|reflexivity].
    destruct (strip_prefix "[[" (String c s)) as [r0|] eqn:E;
      [|reflexivity].
    destruct (Re.lazy_until_close r0) as [[g r]|] eqn:El; [|reflexivity].
    apply strip_prefix_sound in E.
    destruct (lazy_until_close_sound _ _ _ El) as [Er _].
    rewrite E, Er in H.
    replace ("[[" ++ g ++ "]]" ++ r) with (("[[" ++ g) ++ "]]" ++ r) in H
      by apply app_assoc.
    now rewrite contains_mid in H. }
  rewrite Hm. apply contains_false_cons in H as [_ H]. now apply IH.
Qed.

Lemma split_chars (f : ascii -> bool) (sep : ascii) (s : string) :
  all_chars f s = true ->
  Forall (fun t => all_chars f t = true) (split sep s).
Proof.
  induction s as [|c s IH]; intros H; simpl.
  - repeat constructor.
  - cbn [all_chars] in H. apply andb_prop in H as [Hc Hs].
    specialize (IH Hs).
    destruct (Ascii.eqb c sep).
    + constructor; [reflexivity | exact IH].
    + destruct (split sep s) as [|t ts]; inversion IH; subst.
      * repeat constructor. simpl. now rewrite Hc.
      * constructor; [|assumption]. simpl. now rewrite Hc.
Qed.

Lemma name_chars (f : ascii -> bool) (p : string) :
  all_chars f p = true -> all_chars f (PurePath.name p) = true.
Proof.
  intros H. unfold PurePath.name.
  apply (last_Forall (fun t => all_chars f t = true)); [reflexivity|].
  apply Forall_filter. now apply split_chars.
Qed.

Lemma name_char_no_close (s : string) :
  all_chars name_char s = true -> all_chars no_close s = true.
Proof.
  induction s as [|c s IH]; intros H; [reflexivity|].
  cbn [all_chars] in *. apply andb_prop in H as [Hc Hs].
  unfold name_char in Hc. apply andb_prop in Hc as [_ Hc].
  rewrite (IH Hs). unfold no_close. now rewrite Hc.
Qed.

(** X14: a body that is exactly one embed token, for a name without
    newline or closing bracket whose attachment can be read, is rewritten
    to the Markdown image link of the target name; the bytes are copied
    under that name into the bundle, and the wiki-link step leaves the
    link alone. *)
Theorem a_resolved_embed_becomes_an_image_link (stem name data : string)
    (w : world) :
  attachment name = Regular data ->
  all_chars name_char name = true ->
  fs_lookup [stem; new_filename (MD5.hexdigest data) name] (files w)
  <> Some Dir ->
  exists w',
    rewrite_content attachment stem ("![[" ++ name ++ "]]") w
    = Return ("![](" ++ new_filename (MD5.hexdigest data) name ++ ")") w'
    /\ fs_lookup [stem; new_filename (MD5.hexdigest data) name] (files w')
       = Some (File data).
Proof.
  intros Ha Hn Hdst.
  pose proof (lazy_until_close_name name Hn) as Hl.
  set (target := new_filename (MD5.hexdigest data) name) in *.
  assert (Hfind : Re.finditer_attachment_pattern ("![[" ++ name ++ "]]")
                  = [("![[" ++ name ++ "]]", name)]).
  { unfold Re.finditer_attachment_pattern.
    change ("![[" ++ name ++ "]]")
      with (String "!" (String "[" (String "[" (name ++ "]]")))).
    rewrite finditer_step.
    replace (Re.match_attachment_pattern
               (String "!" (String "[" (String "[" (name ++ "]]")))))
      with (Some (name, "")) by (symmetry; exact Hl).
    rewrite finditer_skip; [reflexivity|].
    cbn [String.length]. rewrite length_app. simpl. lia. }
  assert (Hlink : contains "]]" ("![](" ++ target ++ ")") = false).
  { assert (Hy : all_chars no_close (target ++ ")") = true).
    { rewrite all_chars_app. unfold target, new_filename.
      rewrite all_chars_app.
      rewrite (proj2 (hexdigest_chars no_close data eq_refl)).
      rewrite suffix_chars; [reflexivity|].
      apply name_chars, name_char_no_close, Hn. }
    apply no_close_no_pair in Hy.
    change ("![](" ++ target ++ ")")
      with (String "!" (String "[" (String "]" (String "("
              (target ++ ")"))))).
    rewrite !contains_cons, Hy. reflexivity. }
  unfold rewrite_content. rewrite Hfind.
  unfold bind at 1.
  rewrite (resolve_regular attachment stem _ name data [] [] w Ha).
  fold target. unfold bind at 1.
  rewrite copy2_plain by exact Hdst.
  cbn [resolve_attachments List.app]. unfold ret at 1.
  unfold bind at 1. cbn [apply_replacements].
  unfold bind at 1. cbn [logging]. unfold ret at 1.
  cbn [fold_left fst snd].
  change ("![[" ++ name ++ "]]")
    with (String "!" ("[[" ++ name ++ "]]")).
  rewrite replace_self.
  unfold strip_wikilinks, Re.search_wikilink_pattern.
  rewrite (search_without_close _ None None Hlink).
  eexists. split; [reflexivity|].
  cbn [files logged set_files]. apply fs_lookup_put.
Qed.

Lemma rsplit_dot_append (base ext : string) :
  PurePath.rsplit_dot ext = None ->
  PurePath.rsplit_dot (base ++ String "." ext) = Some (base, ext).
Proof.
  intros He. induction base as [|c base IH].
  - cbn [append PurePath.rsplit_dot]. now rewrite He.
  - cbn [append PurePath.rsplit_dot]. now rewrite IH.
Qed.

(** X15: the bundle of a note is named after the note: for a file name
    [base.md] with a non-empty [base] (dots inside [base] included), the
    stem, and so the bundle directory, is [base]. *)
Theorem bundle_is_named_after_the_note (base : string) :
  base <> "" ->
  all_chars no_slash base = true ->
  PurePath.stem (base ++ ".md") = base
  /\ PurePath.suffix (base ++ ".md") = ".md".
Proof.
  intros Hne Hs.
  assert (Hparts : split "/" (base ++ ".md") = [base ++ ".md"]).
  { assert (H : all_chars no_slash (base ++ ".md") = true)
      by now rewrite all_chars_app, Hs.
    revert H. generalize (base ++ ".md") as t.
    induction t as [|c t IH]; intros H; [reflexivity|].
    cbn [all_chars] in H. apply andb_prop in H as [Hc Ht].
    unfold no_slash in Hc. apply negb_true_iff in Hc.
    cbn [split]. now rewrite Hc, (IH Ht). }
  assert (Hname : PurePath.name (base ++ ".md") = base ++ ".md").
  { unfold PurePath.name. rewrite Hparts. cbn [filter].
    destruct base as [|c base]; [contradiction|].
    cbn [append]. cbn [String.eqb].
    destruct base as [|c' base]; cbn [append];
      destruct (Ascii.eqb c "."); reflexivity. }
  assert (Hsplit : PurePath.rsplit_dot (base ++ ".md") = Some (base, "md")).
  { apply (rsplit_dot_append base "md"). reflexivity. }
  unfold PurePath.stem, PurePath.suffix. rewrite Hname, Hsplit.
  destruct base as [|c base]; [contradiction|]. split; reflexivity.
Qed.

End Bundles.

(** ** What a finished turn and a finished run leave *)

Section Results.

Variable yaml_safe_load : string -> value + exn.
Variable yaml_dump : value -> string.
Variable attachment : string -> file_state.
Variable now : nat -> string.
Variable filter_tag : string.
Variable remove_filter_tag : bool.
Variable exclude_dirs : list string.

Local Notation parse := (parse_note_content yaml_safe_load).
Local Notation prepare :=
  (prepare_properties now filter_tag remove_filter_tag).
Local Notation emit :=
  (emit_note yaml_dump attachment now filter_tag remove_filter_tag).
Local Notation run :=
  (process_notes yaml_safe_load yaml_dump attachment now filter_tag
                 remove_filter_tag exclude_dirs).




(** X17: whatever [parse_note_content] returns as the body is a tail of
    the text it was given (the parser adds nothing); it is the whole text
    or it starts with a character that is not blank; the properties are
    the empty mapping or a truthy value; the output tree is not touched;
    and [yaml.YAMLError] is never raised. *)
Theorem parsed_body_is_a_tail (full : string) (w : world) :
  (forall r w',
      parse full w = Return r w' ->
      (exists skipped, full = skipped ++ snd r)
      /\ (snd r = full \/ lstrip (snd r) = snd r)
      /\ (fst r = PDict [] \/ truthy (fst r) = true)
      /\ files w' = files w)
  /\ (forall e w', parse full w = Raise e w' -> e <> YAMLError /\ w' = w).
Proof.
  unfold parse_note_content.
  destruct (Re.FRONT_MATTER_PATTERN_match full) as [[g rest]|] eqn:Em.
  - assert (Htail : exists skipped, full = skipped ++ lstrip rest
                                    /\ lstrip (lstrip rest) = lstrip rest).
    { unfold Re.FRONT_MATTER_PATTERN_match in Em.
      destruct (strip_prefix "---" full) as [r0|] eqn:Ep; [|discriminate].
      apply strip_prefix_sound in Ep.
      destruct (greedy_ws_eol_sound _ _ _ _ Em)
        as [ws [tail [Er [_ [_ Hl]]]]].
      destruct (lazy_to_closing_sound _ _ _ _ Hl)
        as [ws' [Et [_ [Hrest _]]]].
      exists ("---" ++ ws ++ g ++ "---" ++ ws'). rewrite Hrest.
      split; [|exact Hrest].
      rewrite Ep, Er, Et. now rewrite !app_assoc. }
    destruct Htail as [skipped [Es Hls]].
    unfold try_except, bind, ret, raise.
    destruct (yaml_safe_load g) as [v|e]; split.
    + intros r w' H. injection H as <- <-. cbn [fst snd].
      repeat split; eauto.
      destruct (truthy v) eqn:Ht; auto.
    + intros e w' H. discriminate.
    + intros r w' H. destruct e; inversion H; subst. cbn [fst snd].
      repeat split; auto. now exists "".
    + intros e0 w' H. destruct e; inversion H; subst;
        split; (discriminate || reflexivity).
  - split.
    + intros r w' H. injection H as <- <-. cbn [fst snd].
      repeat split; auto. now exists "".
    + intros e w' H. discriminate.
Qed.

(** X18: with the clock held, running the script again on the world that
    a run has left changes nothing more: it returns, or raises, as the
    first run did, and every path of the output tree holds afterwards what
    it held after the first run.  Only the log grows; the date given to a
    note that has none is the one value that follows the clock. *)
Theorem a_second_run_changes_nothing (notes : list note_file) (w : world) :
  (forall i j, now i = now j) ->
  same_result (run notes w) (run notes (world_of (run notes w)))
  /\ same_tree (files (world_of (run notes (world_of (run notes w)))))
               (files (world_of (run notes w))).
Proof.
  intros Hnow.
  destruct (run_repeatable (files (world_of (run notes w))) now Hnow
              yaml_safe_load yaml_dump attachment filter_tag
              remove_filter_tag exclude_dirs notes
              w (world_of (run notes w)))
    as [Hs Hc].
  - apply grows_refl.
  - intros q. now left.
  - split; [exact Hs|]. intros q. now destruct (Hc q).
Qed.

End Results.

(** ** The further properties on concrete vaults *)

Section MoreExamples.

Import Fixture.

Lemma writes_stay_in_the_bundles_witness :
  same_outside (run_may_write [note "Foo.md" foo_md]) empty_world
               (world_of (convert "blog" false [note "Foo.md" foo_md]))
  /\ (forall (n : note_file) (w0 : world),
        In n [note "Foo.md" foo_md] ->
        same_outside (fun q => is_relative_to q (bundle_of n)) w0
          (world_of (process_note pyyaml dump_block attachments clock
                                  "blog" false [] n w0))).
Proof.
  apply (writes_stay_in_the_bundles pyyaml dump_block attachments clock
           "blog" false [] [note "Foo.md" foo_md] empty_world).
  reflexivity.
Defined.

(** The stems that are not plain: those of the notes [..md] and
    [...md]. *)
Example stems_that_are_not_plain :
  PurePath.stem "..md" = "." /\ PurePath.stem "...md" = ".."
  /\ plain_stem (note "..md" plain_md) = false
  /\ plain_stem (note "...md" plain_md) = false
  /\ plain_stem (note ".md" plain_md) = true
  /\ plain_stem (note "Foo.md" foo_md) = true.
Proof. repeat split; reflexivity. Qed.


(** A sibling directory with a longer name is not excluded; a name with
    [..] or an absolute name is resolved by the script before the test,
    which the component lists of [abs_exclude_paths] do not do. *)
Example sibling_directory_is_not_excluded :
  excluded ["Templates"] (mkNote ["Templates2"] "Note.md" Absent) = false
  /\ excluded ["Templates"] (mkNote ["Templates"] "Note.md" Absent) = true
  /\ stays_below "Private/../Templates" = false
  /\ stays_below "/home/me/vault/Templates" = false
  /\ excluded_abs ["home"; "me"; "vault"] ["Private/../Templates"]
                  (mkNote ["Templates"] "Note.md" Absent) = true
  /\ excluded_abs ["home"; "me"; "vault"] ["/home/me/vault/Templates"]
                  (mkNote ["Templates"] "Note.md" Absent) = true
  /\ excluded_abs ["home"; "me"; "vault"] [".."]
                  (mkNote ["Templates2"] "Note.md" Absent) = true.
Proof. repeat split; reflexivity. Qed.

Lemma notes_without_front_matter_are_skipped_witness :
  exists w',
    process_note Cases.pyyaml dump_block attachments clock "" false []
                 (note "Plain.md" plain_md) empty_world
    = Return tt (logged DEBUG (SkipNoTag "Plain.md" "") w')
    /\ files w' = files empty_world.
Proof.
  apply (notes_without_front_matter_are_skipped Cases.pyyaml dump_block
           attachments clock "" false [] (note "Plain.md" plain_md)
           plain_md empty_world eq_refl eq_refl).
  left. reflexivity.
Defined.

Lemma scalar_tags_raise_TypeError_witness :
  process_note Cases.pyyaml dump_block attachments clock "blog" false []
               (note "Number.md" number_md) empty_world
  = Raise TypeError (logged INFO (Checking ["Number.md"]) empty_world)
  /\ files (logged INFO (Checking ["Number.md"]) empty_world)
     = files empty_world.
Proof.
  apply (scalar_tags_raise_TypeError Cases.pyyaml dump_block attachments
           clock "blog" false [] (note "Number.md" number_md) number_md
           "body" [(PStr "tags", PInt 5)] (PInt 5) empty_world
           (logged INFO (Checking ["Number.md"]) empty_world)
           eq_refl eq_refl eq_refl eq_refl eq_refl).
Defined.

Lemma embed_tokens_are_well_formed_witness :
  "![[a.png]]" = "![[" ++ "a.png" ++ "]]"
  /\ contains "![[a.png]]" "x ![[a.png]] y" = true
  /\ all_chars (fun c => negb (is_newline c)) "a.png" = true
  /\ contains "]]" "a.png" = false.
Proof.
  apply (embed_tokens_are_well_formed "x ![[a.png]] y" "![[a.png]]"
           "a.png").
  left. reflexivity.
Defined.

Lemma missing_attachments_change_nothing_witness :
  resolve_attachments attachments "Missing"
    [("![[missing.png]]", "missing.png")] [] empty_world
  = Return []
      (fold_left
         (fun w0 m => logged WARNING (AttachmentMissing (snd m)) w0)
         [("![[missing.png]]", "missing.png")] empty_world)
  /\ files (fold_left
              (fun w0 m => logged WARNING (AttachmentMissing (snd m)) w0)
              [("![[missing.png]]", "missing.png")] empty_world)
     = files empty_world.
Proof.
  apply (missing_attachments_change_nothing attachments "Missing"
           [("![[missing.png]]", "missing.png")] [] empty_world).
  intros tok name [H|[]]. injection H as <- <-. reflexivity.
Defined.

Lemma plain_bodies_are_emitted_verbatim_witness :
  rewrite_content attachments "Foo" "Just a [link](https://x.y) here."
                  empty_world
  = Return "Just a [link](https://x.y) here." empty_world.
Proof.
  apply (plain_bodies_are_emitted_verbatim attachments "Foo"
           "Just a [link](https://x.y) here." empty_world).
  reflexivity.
Defined.

Lemma wikilink_step_on_one_token_witness :
  strip_wikilinks ("[[" ++ "Home" ++ "]]") empty_world
  = Return "Home" (logged INFO UpdatingWikilinks empty_world)
  /\ strip_wikilinks ("![[" ++ "Home" ++ "]]") empty_world
     = Return ("!" ++ "Home") (logged INFO UpdatingWikilinks empty_world)
  /\ strip_wikilinks (String backslash ("![[" ++ "Home" ++ "]]"))
                     empty_world
     = Return (String backslash ("![[" ++ "Home" ++ "]]")) empty_world.
Proof.
  apply (wikilink_step_on_one_token "Home" empty_world); reflexivity.
Defined.

Lemma a_resolved_embed_becomes_an_image_link_witness :
  exists w',
    rewrite_content attachments "Foo" ("![[" ++ "diagram.png" ++ "]]")
                    empty_world
    = Return
        ("![](" ++ new_filename (MD5.hexdigest "PNG") "diagram.png" ++ ")")
        w'
    /\ fs_lookup ["Foo"; new_filename (MD5.hexdigest "PNG") "diagram.png"]
                 (files w')
       = Some (File "PNG").
Proof.
  apply (a_resolved_embed_becomes_an_image_link attachments "Foo"
           "diagram.png" "PNG" empty_world eq_refl eq_refl).
  discriminate.
Defined.

Lemma bundle_is_named_after_the_note_witness :
  PurePath.stem ("My.Note" ++ ".md") = "My.Note"
  /\ PurePath.suffix ("My.Note" ++ ".md") = ".md".
Proof.
  apply (bundle_is_named_after_the_note "My.Note");
    [discriminate | reflexivity].
Defined.


Lemma parsed_body_is_a_tail_witness :
  (exists skipped, foo_md = skipped ++ "See ![[diagram.png]]")
  /\ ("See ![[diagram.png]]" = foo_md
      \/ lstrip "See ![[diagram.png]]" = "See ![[diagram.png]]")
  /\ (PDict [(PStr "tags", PList [PStr "blog"; PStr "draft"])] = PDict []
      \/ truthy (PDict [(PStr "tags", PList [PStr "blog"; PStr "draft"])])
         = true)
  /\ files empty_world = files empty_world.
Proof.
  apply (proj1 (parsed_body_is_a_tail pyyaml foo_md empty_world)
           (PDict [(PStr "tags", PList [PStr "blog"; PStr "draft"])],
            "See ![[diagram.png]]")
           empty_world).
  reflexivity.
Defined.

Lemma a_second_run_changes_nothing_witness :
  let notes := [note "Foo.md" foo_md; note "Missing.md" missing_md] in
  same_result (convert "blog" false notes)
    (process_notes pyyaml dump_block attachments clock "blog" false []
                   notes (world_of (convert "blog" false notes)))
  /\ same_tree
       (files
          (world_of
             (process_notes pyyaml dump_block attachments clock "blog"
                            false [] notes
                            (world_of (convert "blog" false notes)))))
       (files (world_of (convert "blog" false notes))).
Proof.
  intros notes.
  apply (a_second_run_changes_nothing pyyaml dump_block attachments clock
           "blog" false [] notes empty_world).
  intros i j. reflexivity.
Defined.

End MoreExamples.
